(** * kakao-developers-client: the Daum book-search iterator and the Vision
      face detector

    A shallow embedding of [BookSearchIterator] (package daum) and of
    [FaceDetectInitializer] (package vision).  Go values are modelled as
    follows: [int] is a [Z] with the 64-bit wrap-around of [++] written out,
    [string] is a byte string, [float64] is a primitive binary64 float, an
    [error] value is an element of an inductive type, and a method with a
    pointer receiver is a computation over a store holding the receiver,
    the requests put on the wire and the lines written by package [log].
    A computation either returns or panics. *)

From Stdlib Require Import ZArith List String Ascii Bool Lia.
From Stdlib Require Import DecimalString PrimFloat.
From Stdlib Require FloatAxioms SpecFloat FloatOps.
Import ListNotations.

Local Open Scope string_scope.
Local Open Scope Z_scope.

(** ** Go runtime: errors, panics, method invocation *)

Module GoRt.

(** Error values.  The four sentinels are package-level variables declared
    in parts of the repository outside the two files modelled here; they
    are distinct values.  [LibError] stands for an error produced by the
    standard library ([os], [net/http], [encoding/json], [io]). *)
Inductive error : Type :=
| ErrEndPage
| ErrUnsupportedSortingOrder
| ErrPageOutOfBound
| ErrSizeOutOfBound
| errors_New (msg : string)
| LibError (pkg : string) (detail : string).

(** What a goroutine can panic with: an error passed to [panic], the line
    [fmt.Sprintln(v)] raised by [log.Panicln(v)], or a runtime error. *)
Inductive PanicValue : Type :=
| PanicErr (e : error)
| PanicLn (v : PanicValue)
| PanicRuntime (msg : string).

(** How a method body comes to run.  [Call] is the call expression
    [x.F(a)], wherever it stands (also inside a deferred closure).
    [DeferredRun p] is the body run by the runtime because the method
    itself was deferred ([defer x.F(a)]); [p] is the panic in progress at
    that moment, [None] when the surrounding function returned normally. *)
Inductive Invocation : Type :=
| Call
| DeferredRun (pending : option PanicValue).

(** The built-in [recover()]: nil unless it is called directly by a
    deferred function while the goroutine is panicking. *)
Definition recover_value (inv : Invocation) : option PanicValue :=
  match inv with
  | Call => None
  | DeferredRun pending => pending
  end.

Inductive Completion (A : Type) : Type :=
| Returned (a : A)
| Panicked (v : PanicValue).
Arguments Returned {A} a.
Arguments Panicked {A} v.

(** The HTTP request handed to [client.Do].  [Header] holds the fields of
    the header map, a Go map, which has no order of its own: the fields
    are listed by ascending key (the order [net/http] writes them in), so
    that requests with the same fields are equal whatever the order in
    which the fields were put. *)
Record Request : Type := mkRequest {
  Method : string;
  URL : string;
  Header : list (string * string);
  Body : option string;
  Close : bool
}.

(** [h.Add(key, value)] on a header map: the field takes its place by
    its key, behind the fields already there under that key. *)
Fixpoint Header_Add (key value : string) (h : list (string * string))
  : list (string * string) :=
  match h with
  | [] => [(key, value)]
  | (k, v) :: h' =>
      if String.leb k key then (k, v) :: Header_Add key value h'
      else (key, value) :: h
  end.

(** The store a method runs in: the receiver (the object behind the
    pointer, shared by every call of a chain), the requests handed to the
    transport so far, and the values printed by [log.Panicln]. *)
Record Store (R : Type) : Type := mkStore {
  self : R;
  wire : list Request;
  stderr : list PanicValue
}.
Arguments mkStore {R} self wire stderr.
Arguments self {R} s.
Arguments wire {R} s.
Arguments stderr {R} s.

Definition Go (R A : Type) : Type := Store R -> Store R * Completion A.

Definition ret {R A} (a : A) : Go R A := fun s => (s, Returned a).

Definition bind {R A B} (m : Go R A) (k : A -> Go R B) : Go R B :=
  fun s =>
    match m s with
    | (s', Returned a) => k a s'
    | (s', Panicked v) => (s', Panicked v)
    end.

Definition panic {R A} (v : PanicValue) : Go R A := fun s => (s, Panicked v).

Definition update {R} (f : R -> R) : Go R unit :=
  fun s => (mkStore (f (self s)) (wire s) (stderr s), Returned tt).

Definition receiver {R} : Go R R := fun s => (s, Returned (self s)).

(** [recover()] in a body invoked as [inv]. *)
Definition recover {R} (inv : Invocation) : Go R (option PanicValue) :=
  ret (recover_value inv).

(** [log.Panicln(v)]: print, then panic with the printed line. *)
Definition log_Panicln {R A} (v : PanicValue) : Go R A :=
  fun s => (mkStore (self s) (wire s) (stderr s ++ [v]), Panicked (PanicLn v)).

(** [client.Do(req)]: the request goes on the wire; the transport [tr]
    answers from what was sent before and the request. *)
Definition client_Do {R A} (tr : list Request -> Request -> A) (req : Request)
  : Go R A :=
  fun s => (mkStore (self s) (wire s ++ [req]) (stderr s),
            Returned (tr (wire s) req)).

(** The trailing guard of the setters:
    [if r := recover(); r != nil { log.Panicln(r) }]. *)
Definition recover_guard {R} (inv : Invocation) : Go R unit :=
  bind (recover inv) (fun r =>
    match r with
    | Some v => log_Panicln v
    | None => ret tt
    end).

(** The recover branch of a setter is the only code that writes to the
    log and the only one that panics with a printed line; a run of [m]
    from [s] stays clear of it when the log is what it was and the run
    does not end in such a panic. *)
Definition skips_recover_branch {R A} (m : Go R A) (s : Store R) : Prop :=
  stderr (fst (m s)) = stderr s /\
  forall v : PanicValue, snd (m s) <> Panicked (PanicLn v).

End GoRt.
Export GoRt.

Declare Scope go_scope.
Delimit Scope go_scope with go.
Notation "x <- m ;; k" := (bind m (fun x => k))
  (at level 61, m at next level, right associativity) : go_scope.
Notation "m ;; k" := (bind m (fun _ => k))
  (at level 61, right associativity) : go_scope.

(** ** The standard-library string functions the constructors call *)

Module GoStrings.

(** [%d] of package [fmt]. *)
Definition Itoa (z : Z) : string := NilZero.string_of_int (Z.to_int z).

(** The UTF-8 encodings of the runes for which [unicode.IsSpace] holds:
    tab, LF, VT, FF, CR, space, U+0085, U+00A0, U+1680, U+2000..U+200A,
    U+2028, U+2029, U+202F, U+205F and U+3000. *)
Definition spaceEncodings : list (list nat) :=
  [ [9]; [10]; [11]; [12]; [13]; [32];
    [194; 133]; [194; 160];
    [225; 154; 128];
    [226; 128; 128]; [226; 128; 129]; [226; 128; 130]; [226; 128; 131];
    [226; 128; 132]; [226; 128; 133]; [226; 128; 134]; [226; 128; 135];
    [226; 128; 136]; [226; 128; 137]; [226; 128; 138];
    [226; 128; 168]; [226; 128; 169]; [226; 128; 175];
    [226; 129; 159];
    [227; 128; 128] ]%nat.

(** [stripPrefix p s] is the rest of [s] after the bytes [p], if [s]
    starts with them. *)
Fixpoint stripPrefix (p : list nat) (s : list ascii) : option (list ascii) :=
  match p with
  | [] => Some s
  | b :: p' =>
      match s with
      | c :: s' => if Nat.eqb (nat_of_ascii c) b then stripPrefix p' s' else None
      | [] => None
      end
  end.

Fixpoint firstStrip (encs : list (list nat)) (s : list ascii)
  : option (list ascii) :=
  match encs with
  | [] => None
  | p :: encs' =>
      match stripPrefix p s with
      | Some rest => Some rest
      | None => firstStrip encs' s
      end
  end.

(** Drop white-space runes from the front; each round removes at least one
    byte, so [length s] rounds are enough. *)
Fixpoint trimFront (encs : list (list nat)) (fuel : nat) (s : list ascii)
  : list ascii :=
  match fuel with
  | O => s
  | S fuel' =>
      match firstStrip encs s with
      | Some rest => trimFront encs fuel' rest
      | None => s
      end
  end.

(** [strings.TrimSpace]: leading and trailing white space removed, as
    [TrimFunc(s, unicode.IsSpace)] does; the trailing runes are matched by
    their encodings read backwards. *)
Definition TrimSpace (s : string) : string :=
  let l := list_ascii_of_string s in
  let l1 := trimFront spaceEncodings (List.length l) l in
  let r := rev l1 in
  let r1 := trimFront (map (@rev nat) spaceEncodings) (List.length r) r in
  string_of_list_ascii (rev r1).

(** [shouldEscape(c, encodeQueryComponent)] of package [net/url]: only the
    unreserved characters pass. *)
Definition shouldEscape (c : ascii) : bool :=
  let n := nat_of_ascii c in
  negb (((97 <=? n) && (n <=? 122)) || ((65 <=? n) && (n <=? 90))
        || ((48 <=? n) && (n <=? 57))
        || (n =? 45) || (n =? 95) || (n =? 46) || (n =? 126))%nat.

Definition upperhex (n : nat) : ascii :=
  nth n (list_ascii_of_string "0123456789ABCDEF") "0"%char.

(** [url.QueryEscape]: a space becomes [+], every other byte that must be
    escaped becomes [%XX]. *)
Fixpoint QueryEscape (s : string) : string :=
  match s with
  | EmptyString => EmptyString
  | String c s' =>
      if Nat.eqb (nat_of_ascii c) 32 then String "+"%char (QueryEscape s')
      else if shouldEscape c then
        String "%"%char
          (String (upperhex (Nat.div (nat_of_ascii c) 16))
             (String (upperhex (Nat.modulo (nat_of_ascii c) 16))
                (QueryEscape s')))
      else String c (QueryEscape s')
  end.

(** [x++] on a Go [int] (64 bits, two's complement). *)
Definition wrap64 (z : Z) : Z := (z + 2 ^ 63) mod 2 ^ 64 - 2 ^ 63.
Definition incr (z : Z) : Z := wrap64 (z + 1).

(** The white-space runes as strings. *)
Definition whiteSpace : list string :=
  map (fun enc => string_of_list_ascii (map ascii_of_nat enc)) spaceEncodings.

(** Strings put end to end. *)
Definition join (ws : list string) : string :=
  fold_right String.append EmptyString ws.

(** Whether the bytes [q] begin with the bytes [p]. *)
Definition starts (p q : list nat) : bool :=
  match stripPrefix p (map ascii_of_nat q) with
  | Some _ => true
  | None => false
  end.

End GoStrings.
Export GoStrings.

(** ** Package daum: the lazy book-search iterator *)

Module Daum.

(** Modelled from the spec: [common.PageableMeta] is declared outside the
    files at hand; the spec describes it as the pagination metadata block
    holding a total count and the end-of-results flag, and [Next] reads
    its [IsEnd] field. *)
Record PageableMeta : Type := mkMeta {
  TotalCount : Z;
  IsEnd : bool
}.

(** The iterator, field for field. *)
Record BookSearchIterator : Type := mkIterator {
  Query : string;
  AuthKey : string;
  Sort : string;
  Page : Z;
  Size : Z;
  Target : string;
  end_ : bool
}.

Definition set_AuthKey (v : string) (bi : BookSearchIterator) :=
  mkIterator (Query bi) v (Sort bi) (Page bi) (Size bi) (Target bi) (end_ bi).
Definition set_Sort (v : string) (bi : BookSearchIterator) :=
  mkIterator (Query bi) (AuthKey bi) v (Page bi) (Size bi) (Target bi) (end_ bi).
Definition set_Page (v : Z) (bi : BookSearchIterator) :=
  mkIterator (Query bi) (AuthKey bi) (Sort bi) v (Size bi) (Target bi) (end_ bi).
Definition set_Size (v : Z) (bi : BookSearchIterator) :=
  mkIterator (Query bi) (AuthKey bi) (Sort bi) (Page bi) v (Target bi) (end_ bi).
Definition set_Target (v : string) (bi : BookSearchIterator) :=
  mkIterator (Query bi) (AuthKey bi) (Sort bi) (Page bi) (Size bi) v (end_ bi).
Definition set_end (v : bool) (bi : BookSearchIterator) :=
  mkIterator (Query bi) (AuthKey bi) (Sort bi) (Page bi) (Size bi) (Target bi) v.

Section Iterator.

(** The embedded [WebResult] struct and the constants of [internal/common]
    are declared outside the files at hand: they are parameters. *)
Variable WebResult : Type.
Variable KeyPrefix : string.
Variable FormatKey : string -> string.
Variable Authorization : string.

(** The standard library and the network, as the iterator sees them:
    [http.NewRequest] rejects some method/URL pairs, [client.Do] answers a
    request (given what was sent before) with an error or a body, and the
    JSON decoder turns a body into a result, possibly with an error. *)
Variable NewRequest_error : string -> string -> option error.
Variable transport : list Request -> Request -> error + string.

Record BookResult : Type := mkBook {
  Web : WebResult;
  ISBN : string;
  Authors : list string;
  Publisher : string;
  Translators : list string;
  Price : Z;
  SalePrice : Z;
  Thumbnail : string;
  Status : string
}.

Record BookSearchResult : Type := mkResult {
  Meta : PageableMeta;
  Documents : list BookResult
}.

Variable Decode : string -> BookSearchResult * option error.

(** The zero value of the named result [res]. *)
Definition zeroResult : BookSearchResult := mkResult (mkMeta 0 false) [].

Definition BookSearch (query : string) : BookSearchIterator :=
  {| Query := QueryEscape (TrimSpace query);
     AuthKey := KeyPrefix;
     Sort := "accuracy";
     Page := 1;
     Size := 10;
     Target := EmptyString;
     end_ := false |}.

Local Open Scope go_scope.

Definition AuthorizeWith (key : string) : Go BookSearchIterator unit :=
  update (set_AuthKey (FormatKey key)).

Definition SortBy (inv : Invocation) (order : string)
  : Go BookSearchIterator unit :=
  (if (order =? "accuracy")%string || (order =? "latest")%string
   then update (set_Sort order)
   else panic (PanicErr ErrUnsupportedSortingOrder)) ;;
  recover_guard inv.

Definition Result (inv : Invocation) (page : Z) : Go BookSearchIterator unit :=
  (if (1 <=? page) && (page <=? 50)
   then update (set_Page page)
   else panic (PanicErr ErrPageOutOfBound)) ;;
  recover_guard inv.

Definition Display (inv : Invocation) (size : Z) : Go BookSearchIterator unit :=
  (if (1 <=? size) && (size <=? 50)
   then update (set_Size size)
   else panic (PanicErr ErrSizeOutOfBound)) ;;
  recover_guard inv.

(** The targets [Filter] lets through. *)
Definition options : list string :=
  ["title"; "isbn"; "publisher"; "person"; EmptyString].

Definition filterMessage : string :=
  "target must be one of the following options:
			title, isbn, publisher, person".

Definition Filter (inv : Invocation) (target : string)
  : Go BookSearchIterator unit :=
  (if (target =? "title")%string || (target =? "isbn")%string
      || (target =? "publisher")%string || (target =? "person")%string
      || (target =? EmptyString)%string
   then update (set_Target target)
   else panic (PanicErr (errors_New filterMessage))) ;;
  recover_guard inv.

(** The URL [Next] formats with [fmt.Sprintf]. *)
Definition requestURL (bi : BookSearchIterator) : string :=
  "https://dapi.kakao.com/v3/search/book?query=" ++ Query bi
  ++ "&sort=" ++ Sort bi
  ++ "&page=" ++ Itoa (Page bi)
  ++ "&size=" ++ Itoa (Size bi)
  ++ "&target=" ++ Target bi.

(** The request as it stands when it is handed to [client.Do]: built by
    [http.NewRequest(http.MethodGet, url, nil)], then [Close] set and the
    authorization header set ([Authorization] standing for the header
    name as [Header.Set] stores it). *)
Definition requestOf (bi : BookSearchIterator) : Request :=
  {| Method := "GET";
     URL := requestURL bi;
     Header := [(Authorization, AuthKey bi)];
     Body := None;
     Close := true |}.

Definition Next : Go BookSearchIterator (BookSearchResult * option error) :=
  bi <- receiver ;;
  if end_ bi then ret (zeroResult, Some ErrEndPage)
  else
    match NewRequest_error "GET" (requestURL bi) with
    | Some err => ret (zeroResult, Some err)
    | None =>
        resp <- client_Do transport (requestOf bi) ;;
        match resp with
        | inl err => ret (zeroResult, Some err)
        | inr body =>
            match Decode body with
            | (res, Some err) => ret (res, Some err)
            | (res, None) =>
                update (fun bi => set_Page (incr (Page bi)) bi) ;;
                update (fun bi =>
                          set_end (IsEnd (Meta res) || (50 <? Page bi)) bi) ;;
                ret (res, None)
            end
        end
    end.

(** The five ways a step of the iterator can go: already exhausted, request
    refused by [http.NewRequest], transport failure, undecodable body, or
    a page delivered. *)
Inductive NextCase (s : Store BookSearchIterator)
  : Store BookSearchIterator -> BookSearchResult -> option error -> Prop :=
| NextEnd :
    end_ (self s) = true ->
    NextCase s s zeroResult (Some ErrEndPage)
| NextBadRequest e :
    end_ (self s) = false ->
    NewRequest_error "GET" (requestURL (self s)) = Some e ->
    NextCase s s zeroResult (Some e)
| NextTransport e :
    end_ (self s) = false ->
    NewRequest_error "GET" (requestURL (self s)) = None ->
    transport (wire s) (requestOf (self s)) = inl e ->
    NextCase s
      (mkStore (self s) (wire s ++ [requestOf (self s)]) (stderr s))
      zeroResult (Some e)
| NextDecode body res e :
    end_ (self s) = false ->
    NewRequest_error "GET" (requestURL (self s)) = None ->
    transport (wire s) (requestOf (self s)) = inr body ->
    Decode body = (res, Some e) ->
    NextCase s
      (mkStore (self s) (wire s ++ [requestOf (self s)]) (stderr s))
      res (Some e)
| NextPage body res :
    end_ (self s) = false ->
    NewRequest_error "GET" (requestURL (self s)) = None ->
    transport (wire s) (requestOf (self s)) = inr body ->
    Decode body = (res, None) ->
    NextCase s
      (mkStore
         (set_end
            (IsEnd (Meta res)
             || (50 <? incr (Page (self s))))
            (set_Page (incr (Page (self s))) (self s)))
         (wire s ++ [requestOf (self s)]) (stderr s))
      res None.

(** The operations of the iterator, for statements about every sequence
    of calls. *)
Inductive Op : Type :=
| OpNext
| OpAuthorizeWith (key : string)
| OpSortBy (inv : Invocation) (order : string)
| OpResult (inv : Invocation) (page : Z)
| OpDisplay (inv : Invocation) (size : Z)
| OpFilter (inv : Invocation) (target : string).

Definition perform (op : Op) : Go BookSearchIterator unit :=
  match op with
  | OpNext => _ <- Next ;; ret tt
  | OpAuthorizeWith key => AuthorizeWith key
  | OpSortBy inv order => SortBy inv order
  | OpResult inv page => Result inv page
  | OpDisplay inv size => Display inv size
  | OpFilter inv target => Filter inv target
  end.

(** A caller performing [ops] one after the other; a panic of one
    operation is taken to be recovered by the caller, who goes on with
    the same iterator. *)
Fixpoint perform_all (ops : list Op) (s : Store BookSearchIterator)
  : Store BookSearchIterator :=
  match ops with
  | [] => s
  | op :: ops' => perform_all ops' (fst (perform op s))
  end.

(** [n] consecutive calls of [Next], keeping what each one returned. *)
Fixpoint Next_times (n : nat) (s : Store BookSearchIterator)
  : Store BookSearchIterator
    * list (Completion (BookSearchResult * option error)) :=
  match n with
  | O => (s, [])
  | S n' =>
      let '(s1, out) := Next s in
      let '(s2, outs) := Next_times n' s1 in
      (s2, out :: outs)
  end.

(** The configuration setters as they stand in a call chain. *)
Inductive Setter : Type :=
| SetAuthorizeWith (key : string)
| SetSortBy (order : string)
| SetResult (page : Z)
| SetDisplay (size : Z)
| SetFilter (target : string).

Definition apply_setter (st : Setter) : Go BookSearchIterator unit :=
  match st with
  | SetAuthorizeWith key => AuthorizeWith key
  | SetSortBy order => SortBy Call order
  | SetResult page => Result Call page
  | SetDisplay size => Display Call size
  | SetFilter target => Filter Call target
  end.

(** The arguments each setter accepts. *)
Definition valid_argument (st : Setter) : bool :=
  match st with
  | SetAuthorizeWith _ => true
  | SetSortBy order => (order =? "accuracy")%string || (order =? "latest")%string
  | SetResult page => (1 <=? page) && (page <=? 50)
  | SetDisplay size => (1 <=? size) && (size <=? 50)
  | SetFilter target =>
      (target =? "title")%string || (target =? "isbn")%string
      || (target =? "publisher")%string || (target =? "person")%string
      || (target =? EmptyString)%string
  end.

Definition same_setter (a b : Setter) : bool :=
  match a, b with
  | SetAuthorizeWith _, SetAuthorizeWith _
  | SetSortBy _, SetSortBy _
  | SetResult _, SetResult _
  | SetDisplay _, SetDisplay _
  | SetFilter _, SetFilter _ => true
  | _, _ => false
  end.

(** The chain [AuthorizeWith(key).Result(page).Display(size).Next()]. *)
Definition search_chain (key : string) (page size : Z)
  : Go BookSearchIterator (BookSearchResult * option error) :=
  AuthorizeWith key ;; Result Call page ;; Display Call size ;; Next.

(** How many of the calls recorded in [outs] delivered a page, that is
    returned a result and no error. *)
Fixpoint delivered
    (outs : list (Completion (BookSearchResult * option error))) : nat :=
  match outs with
  | [] => O
  | Returned (_, None) :: outs' => S (delivered outs')
  | _ :: outs' => delivered outs'
  end.



End Iterator.

End Daum.

(** ** Package vision: the face detector *)

Module Vision.

Record Gender : Type := mkGender {
  Male : float;
  Female : float
}.

Record FacialAttributes : Type := mkAttributes {
  Gender_ : Gender;
  Age : float
}.

Record FacialPoints : Type := mkPoints {
  Jaw : list (list float);
  RightEyebrow : list (list float);
  LeftEyebrow : list (list float);
  Nose : list (list float);
  RightEye : list (list float);
  LeftEye : list (list float);
  Lip : list (list float)
}.

Record Face : Type := mkFace {
  FacialAttributes_ : FacialAttributes;
  FacialPoints_ : FacialPoints;
  Score : float;
  ClassIdx : Z;
  X : float;
  Y : float;
  W : float;
  H : float;
  Pitch : float;
  Yaw : float;
  Roll : float
}.

Record FaceResult : Type := mkFaceResult {
  Width : Z;
  Height : Z;
  Faces : list Face
}.

Record FaceDetectResult : Type := mkDetect {
  RID : string;
  Result : FaceResult
}.

Definition zeroResult : FaceDetectResult :=
  mkDetect EmptyString (mkFaceResult 0 0 []).

Record FaceDetectInitializer : Type := mkInitializer {
  AuthKey : string;
  Filename : string;
  ImageURL : string;
  Threshold : float;
  withFile : bool
}.

Definition set_AuthKey (v : string) (fi : FaceDetectInitializer) :=
  mkInitializer v (Filename fi) (ImageURL fi) (Threshold fi) (withFile fi).
Definition set_Filename (v : string) (fi : FaceDetectInitializer) :=
  mkInitializer (AuthKey fi) v (ImageURL fi) (Threshold fi) (withFile fi).
Definition set_ImageURL (v : string) (fi : FaceDetectInitializer) :=
  mkInitializer (AuthKey fi) (Filename fi) v (Threshold fi) (withFile fi).
Definition set_Threshold (v : float) (fi : FaceDetectInitializer) :=
  mkInitializer (AuthKey fi) (Filename fi) (ImageURL fi) v (withFile fi).
Definition set_withFile (v : bool) (fi : FaceDetectInitializer) :=
  mkInitializer (AuthKey fi) (Filename fi) (ImageURL fi) (Threshold fi) v.

(** What [os.Open] hands back for a path that opens: the size [Stat]
    reports ([None] when [Stat] fails and its [FileInfo] is nil) and what
    reading the file to its end gives. *)
Record File : Type := mkFile {
  stat_Size : option Z;
  contents : error + string
}.

(** The upload cap, [2*1024*1024] bytes. *)
Definition maxUpload : Z := 2 * 1024 * 1024.

Section Detector.

(** Declared outside the file at hand: the constants of [internal/common]
    and the package variable [prefix] (the base URL of the service). *)
Variable KeyPrefix : string.
Variable FormatKey : string -> string.
Variable Authorization : string.
Variable prefix : string.

(** The standard library, the file system and the network: [%f] of
    package [fmt]; [os.Open]; the multipart writer (its form body for a
    threshold field and an image part, its content type, and the error
    [CreateFormFile] may give); [http.NewRequest]; [client.Do]; the JSON
    decoder. *)
Variable Sprintf_f : float -> string.
Variable os_Open : string -> error + File.
Variable CreateFormFile_error : string -> string -> option error.
Variable multipartBody : string -> string -> string -> string.
Variable FormDataContentType : string.
Variable NewRequest_error : string -> string -> option error.
Variable transport : list Request -> Request -> error + string.
Variable Decode : string -> FaceDetectResult * option error.

(** [FaceDetect()]: the threshold literal [0.7] as the float64 nearest to
    it; [withFile] is left at its zero value. *)
Definition FaceDetect : FaceDetectInitializer :=
  {| AuthKey := KeyPrefix;
     Filename := EmptyString;
     ImageURL := EmptyString;
     Threshold := 0x1.6666666666666p-1%float;
     withFile := false |}.

Local Open Scope go_scope.

Definition WithURL (url : string) : Go FaceDetectInitializer unit :=
  update (set_ImageURL url) ;;
  update (set_withFile false).

Definition WithFile (filename : string) : Go FaceDetectInitializer unit :=
  update (set_Filename filename) ;;
  update (set_withFile true).

Definition AuthorizeWith (key : string) : Go FaceDetectInitializer unit :=
  update (set_AuthKey (FormatKey key)).

(** The bounds are the float64 values nearest to [0.1] and [1.0]. *)
Definition ThresholdAt (inv : Invocation) (val : float)
  : Go FaceDetectInitializer unit :=
  (if (PrimFloat.leb 0x1.999999999999ap-4 val && PrimFloat.leb val 1)%bool
   then update (set_Threshold val)
   else panic (PanicErr (errors_New "threshold must be between 0.1 and 1.0"))) ;;
  recover_guard inv.

(** The tail of [Collect] shared by both branches: close flag and
    authorization header on the request, one [client.Do], JSON decode. *)
Definition send (req : Request)
  : Go FaceDetectInitializer (FaceDetectResult * option error) :=
  fi <- receiver ;;
  resp <- client_Do transport
            {| Method := Method req;
               URL := URL req;
               Header := Header_Add Authorization (AuthKey fi) (Header req);
               Body := Body req;
               Close := true |} ;;
  match resp with
  | inl err => ret (zeroResult, Some err)
  | inr body =>
      match Decode body with
      | (res, Some err) => ret (res, Some err)
      | (res, None) => ret (res, None)
      end
  end.

(** The [err] of [file, err := os.Open(...)]. *)
Definition open_error (opened : error + File) : option error :=
  match opened with
  | inl e => Some e
  | inr _ => None
  end.

Definition Collect
  : Go FaceDetectInitializer (FaceDetectResult * option error) :=
  fi <- receiver ;;
  if withFile fi then
    let opened := os_Open (Filename fi) in
    let err := open_error opened in
    match opened with
    | inl _ => ret (zeroResult, err)
    | inr file =>
        match stat_Size file with
        | None =>
            panic (PanicRuntime
                     "invalid memory address or nil pointer dereference")
        | Some size =>
            if maxUpload <? size then ret (zeroResult, err)
            else
              match CreateFormFile_error "image" (Filename fi) with
              | Some err => ret (zeroResult, Some err)
              | None =>
                  match contents file with
                  | inl err => ret (zeroResult, Some err)
                  | inr bytes =>
                      let url := prefix ++ "/face/detect" in
                      match NewRequest_error "POST" url with
                      | Some err => ret (zeroResult, Some err)
                      | None =>
                          send {| Method := "POST";
                                  URL := url;
                                  Header :=
                                    [("Content-Type", FormDataContentType)];
                                  Body :=
                                    Some (multipartBody
                                            (Sprintf_f (Threshold fi))
                                            (Filename fi) bytes);
                                  Close := false |}
                      end
                  end
              end
        end
    end
  else
    let url := prefix ++ "/face/detect?threshold=" ++ Sprintf_f (Threshold fi)
               ++ "&image_url=" ++ ImageURL fi in
    match NewRequest_error "POST" url with
    | Some err => ret (zeroResult, Some err)
    | None =>
        send {| Method := "POST"; URL := url; Header := []; Body := None;
                Close := false |}
    end.

(** The operations of the detector, for statements about every sequence
    of calls. *)
Inductive Op : Type :=
| OpWithURL (url : string)
| OpWithFile (filename : string)
| OpAuthorizeWith (key : string)
| OpThresholdAt (inv : Invocation) (val : float)
| OpCollect.

Definition perform (op : Op) : Go FaceDetectInitializer unit :=
  match op with
  | OpWithURL url => WithURL url
  | OpWithFile filename => WithFile filename
  | OpAuthorizeWith key => AuthorizeWith key
  | OpThresholdAt inv val => ThresholdAt inv val
  | OpCollect => _ <- Collect ;; ret tt
  end.

(** A caller performing [ops] one after the other, recovering from the
    panics on the way. *)
Fixpoint perform_all (ops : list Op) (s : Store FaceDetectInitializer)
  : Store FaceDetectInitializer :=
  match ops with
  | [] => s
  | op :: ops' => perform_all ops' (fst (perform op s))
  end.

(** The request [Collect] sends for an image given by its URL. *)
Definition urlRequest (fi : FaceDetectInitializer) : Request :=
  {| Method := "POST";
     URL := prefix ++ "/face/detect?threshold=" ++ Sprintf_f (Threshold fi)
            ++ "&image_url=" ++ ImageURL fi;
     Header := [(Authorization, AuthKey fi)];
     Body := None;
     Close := true |}.

(** The request [Collect] sends for an image file holding [bytes]. *)
Definition uploadRequest (fi : FaceDetectInitializer) (bytes : string)
  : Request :=
  {| Method := "POST";
     URL := prefix ++ "/face/detect";
     Header := Header_Add Authorization (AuthKey fi)
                 [("Content-Type", FormDataContentType)];
     Body := Some (multipartBody (Sprintf_f (Threshold fi)) (Filename fi)
                     bytes);
     Close := true |}.

(** What [Collect] returns once the request went out: the transport's
    error with the zero result, or what the decoder made of the body. *)
Definition answer (sent : list Request) (req : Request)
  : FaceDetectResult * option error :=
  match transport sent req with
  | inl err => (zeroResult, Some err)
  | inr body => Decode body
  end.

(** The configuration setters of the detector as they stand in a call
    chain. *)
Inductive Setter : Type :=
| SetWithURL (url : string)
| SetWithFile (filename : string)
| SetAuthorizeWith (key : string)
| SetThresholdAt (val : float).

Definition apply_setter (st : Setter) : Go FaceDetectInitializer unit :=
  match st with
  | SetWithURL url => WithURL url
  | SetWithFile filename => WithFile filename
  | SetAuthorizeWith key => AuthorizeWith key
  | SetThresholdAt val => ThresholdAt Call val
  end.

(** The arguments each setter accepts. *)
Definition valid_argument (st : Setter) : bool :=
  match st with
  | SetThresholdAt val =>
      (PrimFloat.leb 0x1.999999999999ap-4 val && PrimFloat.leb val 1)%bool
  | _ => true
  end.

(** Two setters that write different fields: different setters, other
    than the pair [WithURL], [WithFile], which both write [withFile]. *)
Definition independent (a b : Setter) : bool :=
  match a, b with
  | SetWithURL _, (SetAuthorizeWith _ | SetThresholdAt _)
  | SetWithFile _, (SetAuthorizeWith _ | SetThresholdAt _)
  | SetAuthorizeWith _, (SetWithURL _ | SetWithFile _ | SetThresholdAt _)
  | SetThresholdAt _, (SetWithURL _ | SetWithFile _ | SetAuthorizeWith _) =>
      true
  | _, _ => false
  end.

End Detector.

End Vision.

(** ** Package translation_test: the language-detection tests *)

Module TranslationTest.

Section Tests.

(** Declared outside the files at hand: the result type of
    [translation.DetectLanguage], the key [common.REST_API_KEY], what the
    chain [DetectLanguage(query).AuthorizeWith(key).RequestBy(method)]
    returns, and the [SaveAs] method of its result. *)
Variable DetectResult : Type.
Variable REST_API_KEY : string.
Variable RequestBy : string -> string -> string -> DetectResult * option error.
Variable SaveAs : DetectResult -> string -> option error.

(** What a test does that can be seen from outside: its calls of
    [t.Error] and [t.Log], and the file names it hands to [SaveAs]. *)
Inductive Report : Type :=
| t_Error (e : error)
| t_Log (dr : DetectResult)
| saved (filename : string).

Definition query : string := "안녕하세요".

Definition TestDetectLanguageByGET : list Report :=
  let '(dr, err) := RequestBy query REST_API_KEY "GET" in
  match err with
  | Some e => [t_Error e]
  | None => [t_Log dr]
  end.

(** [else if err = dr.SaveAs(...); err != nil]: the error of [SaveAs] is
    assigned to [err] and tested. *)
Definition TestDetectLanguageByGETSaveAsJSON : list Report :=
  let '(dr, err) := RequestBy query REST_API_KEY "GET" in
  match err with
  | Some e => [t_Error e]
  | None =>
      let err := SaveAs dr "detect_test_by_get.json" in
      saved "detect_test_by_get.json"
      :: match err with
         | Some e => [t_Error e]
         | None => []
         end
  end.

Definition TestDetectLanguageByPOST : list Report :=
  let '(dr, err) := RequestBy query REST_API_KEY "POST" in
  match err with
  | Some e => [t_Error e]
  | None => [t_Log dr]
  end.

(** [else if dr.SaveAs(...); err != nil]: [SaveAs] is called as a
    statement, its result dropped, and the [err] tested is still the one
    of the request. *)
Definition TestDetectLanguageByPOSTSaveAsJSON : list Report :=
  let '(dr, err) := RequestBy query REST_API_KEY "POST" in
  match err with
  | Some e => [t_Error e]
  | None =>
      let _ := SaveAs dr "detect_test_by_post.json" in
      saved "detect_test_by_post.json"
      :: match err with
         | Some e => [t_Error e]
         | None => []
         end
  end.

(** A test fails when it called [t.Error]. *)
Definition failed (reports : list Report) : bool :=
  existsb (fun r => match r with t_Error _ => true | _ => false end) reports.

End Tests.

End TranslationTest.

(** ** Sample environments

    Concrete values for the parameters, used to run the model. *)

Module Sample.

Definition KeyPrefix : string := "KakaoAK ".
Definition FormatKey (key : string) : string := KeyPrefix ++ key.
Definition Authorization : string := "Authorization".
Definition prefix : string := "https://dapi.kakao.com/v2/vision".

Definition accept_all (method url : string) : option error := None.
(** A server that answers every request with the same body. *)
Definition serve (body : string) (sent : list Request) (req : Request)
  : error + string := inr body.

(** A network that is down. *)
Definition unreachable (sent : list Request) (req : Request)
  : error + string := inl (LibError "net/http" "connection refused").

Definition book (isbn : string) : Daum.BookResult unit :=
  Daum.mkBook unit tt isbn [] EmptyString [] 0 0 EmptyString EmptyString.

(** A decoder for bodies naming how many documents they hold and whether
    the server says the results end here. *)
Definition decode_books (n : nat) (is_end : bool) (body : string)
  : Daum.BookSearchResult unit * option error :=
  (Daum.mkResult unit (Daum.mkMeta (Z.of_nat n) is_end) (repeat (book "x") n),
   None).

Definition decode_garbage (body : string)
  : Daum.BookSearchResult unit * option error :=
  (Daum.zeroResult unit,
   Some (LibError "encoding/json" "unexpected end of input")).

(** The URL of the documented example: page 1, five documents a page. *)
Definition example_URL : string :=
  "https://dapi.kakao.com/v3/search/book?query=%EC%98%A4%EB%B8%8C%EC%A0%9D%ED%8A%B8&sort=accuracy&page=1&size=5&target=".

Definition fresh (query : string) : Store Daum.BookSearchIterator :=
  mkStore (Daum.BookSearch KeyPrefix query) [] [].

(** An image file of [size] bytes (its bytes do not matter). *)
Definition image (size : Z) : Vision.File :=
  Vision.mkFile (Some size) (inr EmptyString).

Definition disk (size : Z) (name : string) : error + Vision.File :=
  if (name =? "big.jpg")%string then inr (image size)
  else inl (LibError "os" "no such file").

Definition decode_faces (body : string)
  : Vision.FaceDetectResult * option error := (Vision.zeroResult, None).

Definition detector : Store Vision.FaceDetectInitializer :=
  mkStore (Vision.FaceDetect KeyPrefix) [] [].

(** An iterator standing at the last page. *)
Definition last_page : Store Daum.BookSearchIterator :=
  mkStore (Daum.set_Page 50 (Daum.BookSearch KeyPrefix "go")) [] [].

(** An iterator that has reached the end. *)
Definition exhausted : Store Daum.BookSearchIterator :=
  mkStore (Daum.set_end true (Daum.BookSearch KeyPrefix "go")) [] [].

(** [Next] against a server that answers three documents and says that
    more exist. *)
Definition Next_served
  : Go Daum.BookSearchIterator (Daum.BookSearchResult unit * option error) :=
  Daum.Next unit Authorization accept_all (serve "{}") (decode_books 3 false).

(** [Next] with the network down. *)
Definition Next_offline
  : Go Daum.BookSearchIterator (Daum.BookSearchResult unit * option error) :=
  Daum.Next unit Authorization accept_all unreachable decode_garbage.

(** The documented example against a server that answers six documents. *)
Definition example_six
  : Store Daum.BookSearchIterator
    * Completion (Daum.BookSearchResult unit * option error) :=
  Daum.search_chain unit FormatKey Authorization accept_all (serve "{}")
    (decode_books 6 false) "key" 1 5
    (mkStore (Daum.BookSearch KeyPrefix "오브젝트") [] []).

(** A detector pointed at the file [big.jpg]. *)
Definition upload : Store Vision.FaceDetectInitializer :=
  mkStore (Vision.set_withFile true
             (Vision.set_Filename "big.jpg" (Vision.FaceDetect KeyPrefix)))
    [] [].

(** [Collect] on a disk whose [big.jpg] has [size] bytes. *)
Definition Collect_from_disk (size : Z)
  : Go Vision.FaceDetectInitializer (Vision.FaceDetectResult * option error) :=
  Vision.Collect Authorization prefix (fun _ => "0.700000") (disk size)
    (fun _ _ => None) (fun _ _ bytes => bytes) "multipart/form-data"
    accept_all (serve "{}") decode_faces.

(** A detector told to fetch the image from a URL. *)
Definition by_url : Store Vision.FaceDetectInitializer :=
  mkStore (Vision.set_ImageURL "https://example.com/face.jpg"
             (Vision.FaceDetect KeyPrefix))
    [] [].

(** A disk whose [big.jpg] opens but cannot be stat-ed. *)
Definition disk_without_stat (name : string) : error + Vision.File :=
  inr (Vision.mkFile None (inr EmptyString)).

(** [Collect] on that disk. *)
Definition Collect_without_stat
  : Go Vision.FaceDetectInitializer (Vision.FaceDetectResult * option error) :=
  Vision.Collect Authorization prefix (fun _ => "0.700000") disk_without_stat
    (fun _ _ => None) (fun _ _ bytes => bytes) "multipart/form-data"
    accept_all (serve "{}") decode_faces.

(** A detection request that succeeds, and saving that fails. *)
Definition request_ok (query key method : string) : unit * option error :=
  (tt, None).
Definition save_fails (dr : unit) (filename : string) : option error :=
  Some (LibError "os" "permission denied").

(** A decoder for a body that reports the end of the results and then
    breaks off. *)
Definition decode_cut_short (body : string)
  : Daum.BookSearchResult unit * option error :=
  (Daum.mkResult unit (Daum.mkMeta 0 true) [],
   Some (LibError "encoding/json" "unexpected EOF")).

(** [Next] against a server whose bodies break off. *)
Definition Next_cut_short
  : Go Daum.BookSearchIterator (Daum.BookSearchResult unit * option error) :=
  Daum.Next unit Authorization accept_all (serve "{") decode_cut_short.

End Sample.

(** * Properties *)

Ltac go_unfold :=
  unfold Daum.Next, Daum.SortBy, Daum.Result, Daum.Display, Daum.Filter,
    Daum.AuthorizeWith, recover_guard, recover, client_Do, log_Panicln,
    bind, ret, panic, update, receiver;
  cbn [self wire stderr fst snd].

Ltac go_step :=
  cbn [self wire stderr fst snd Daum.Page Daum.set_Page Daum.set_end].

(** ** The setters *)

Lemma in_range_true (z : Z) : 1 <= z <= 50 -> (1 <=? z) && (z <=? 50) = true.
Proof.
  intros [H1 H2]. apply andb_true_intro. split; now apply Z.leb_le.
Qed.

Lemma in_range_false (z : Z) :
  z < 1 \/ 50 < z -> (1 <=? z) && (z <=? 50) = false.
Proof.
  intros [H|H]; apply andb_false_iff; [left|right]; apply Z.leb_gt; lia.
Qed.

Lemma target_test (target : string) :
  (target =? "title")%string || (target =? "isbn")%string
  || (target =? "publisher")%string || (target =? "person")%string
  || (target =? EmptyString)%string = true <-> In target Daum.options.
Proof.
  unfold Daum.options. simpl. rewrite !orb_true_iff, !String.eqb_eq.
  intuition congruence.
Qed.

Lemma Result_call_in_range (n : Z) (s : Store Daum.BookSearchIterator) :
  1 <= n <= 50 ->
  Daum.Result Call n s
  = (mkStore (Daum.set_Page n (self s)) (wire s) (stderr s), Returned tt).
Proof.
  intros Hin. go_unfold. rewrite (in_range_true n Hin). reflexivity.
Qed.

Lemma Display_call_in_range (n : Z) (s : Store Daum.BookSearchIterator) :
  1 <= n <= 50 ->
  Daum.Display Call n s
  = (mkStore (Daum.set_Size n (self s)) (wire s) (stderr s), Returned tt).
Proof.
  intros Hin. go_unfold. rewrite (in_range_true n Hin). reflexivity.
Qed.

(** C3: [Result] and [Display] panic (they have no error result) on every
    argument outside [1,50], with the iterator, the wire and the log left
    exactly as they were, however the setter is invoked; on every
    argument inside [1,50] a call returns and the iterator differs from
    the old one in that one field only. *)
Theorem Result_Display_bounds (n : Z) (s : Store Daum.BookSearchIterator) :
  (n < 1 \/ 50 < n ->
   forall inv : Invocation,
     Daum.Result inv n s = (s, Panicked (PanicErr ErrPageOutOfBound)) /\
     Daum.Display inv n s = (s, Panicked (PanicErr ErrSizeOutOfBound)))
  /\
  (1 <= n <= 50 ->
   Daum.Result Call n s =
     (mkStore
        (Daum.mkIterator (Daum.Query (self s)) (Daum.AuthKey (self s))
           (Daum.Sort (self s)) n (Daum.Size (self s))
           (Daum.Target (self s)) (Daum.end_ (self s)))
        (wire s) (stderr s), Returned tt) /\
   Daum.Display Call n s =
     (mkStore
        (Daum.mkIterator (Daum.Query (self s)) (Daum.AuthKey (self s))
           (Daum.Sort (self s)) (Daum.Page (self s)) n
           (Daum.Target (self s)) (Daum.end_ (self s)))
        (wire s) (stderr s), Returned tt)).
Proof.
  split.
  - intros Hout inv. go_unfold. rewrite (in_range_false n Hout).
    split; reflexivity.
  - intros Hin.
    rewrite (Result_call_in_range n s Hin), (Display_call_in_range n s Hin).
    split; reflexivity.
Qed.

(** C10: [Filter] takes the empty string next to the four documented
    targets: a call with one of the five returns with [Target] set to it
    (to the empty string for the empty string) and nothing else changed;
    every other string makes it panic, the store untouched. *)
Theorem Filter_targets (target : string) (s : Store Daum.BookSearchIterator) :
  (In target Daum.options ->
   Daum.Filter Call target s =
     (mkStore
        (Daum.mkIterator (Daum.Query (self s)) (Daum.AuthKey (self s))
           (Daum.Sort (self s)) (Daum.Page (self s)) (Daum.Size (self s))
           target (Daum.end_ (self s)))
        (wire s) (stderr s), Returned tt))
  /\
  (~ In target Daum.options ->
   forall inv : Invocation,
     Daum.Filter inv target s =
       (s, Panicked (PanicErr (errors_New Daum.filterMessage)))).
Proof.
  split.
  - intros Hin. apply target_test in Hin. go_unfold. rewrite Hin.
    reflexivity.
  - intros Hout inv. go_unfold.
    destruct ((target =? "title")%string || (target =? "isbn")%string
              || (target =? "publisher")%string || (target =? "person")%string
              || (target =? EmptyString)%string) eqn:Htest.
    + apply target_test in Htest. contradiction.
    + reflexivity.
Qed.

(** ** The iterator's step function *)

Section DaumFacts.

Variable WebResult : Type.
Variable KeyPrefix : string.
Variable FormatKey : string -> string.
Variable Authorization : string.
Variable NewRequest_error : string -> string -> option error.
Variable transport : list Request -> Request -> error + string.
Variable Decode : string -> Daum.BookSearchResult WebResult * option error.

Local Abbreviation Next :=
  (Daum.Next WebResult Authorization NewRequest_error transport Decode).
Local Abbreviation Next_times :=
  (Daum.Next_times WebResult Authorization NewRequest_error transport Decode).
Local Abbreviation perform :=
  (Daum.perform WebResult FormatKey Authorization NewRequest_error transport
     Decode).
Local Abbreviation perform_all :=
  (Daum.perform_all WebResult FormatKey Authorization NewRequest_error
     transport Decode).
Local Abbreviation zeroResult := (Daum.zeroResult WebResult).
Local Abbreviation requestOf := (Daum.requestOf Authorization).
Local Abbreviation iterator := Daum.BookSearchIterator.
Local Abbreviation NextCase :=
  (Daum.NextCase WebResult Authorization NewRequest_error transport Decode).

(** An exhausted iterator answers with the sentinel and touches nothing. *)
Lemma Next_exhausted (s : Store iterator) :
  Daum.end_ (self s) = true ->
  Next s = (s, Returned (zeroResult, Some ErrEndPage)).
Proof.
  intros Hend. go_unfold. rewrite Hend. reflexivity.
Qed.

(** [Next] is total and never panics: it always returns, in one of the
    five ways. *)
Lemma Next_cases (s : Store iterator) :
  exists s1 res err,
    Next s = (s1, Returned (res, err)) /\ NextCase s s1 res err.
Proof.
  destruct s as [bi w l]. go_unfold.
  destruct (Daum.end_ bi) eqn:Hend.
  - do 3 eexists. split; [reflexivity|]. now apply Daum.NextEnd.
  - destruct (NewRequest_error "GET" (Daum.requestURL bi)) as [e|] eqn:Hreq.
    + do 3 eexists. split; [reflexivity|]. now apply Daum.NextBadRequest.
    + go_step.
      destruct (transport w (requestOf bi)) as [e|body] eqn:Hdo.
      * do 3 eexists. split; [reflexivity|].
        now apply (Daum.NextTransport _ _ _ _ _ (mkStore bi w l)).
      * destruct (Decode body) as [res [e|]] eqn:Hdec; go_step.
        -- do 3 eexists. split; [reflexivity|].
           now apply (Daum.NextDecode _ _ _ _ _ (mkStore bi w l) body).
        -- do 3 eexists. split; [reflexivity|].
           now apply (Daum.NextPage _ _ _ _ _ (mkStore bi w l) body).
Qed.

Lemma Next_inv (s s1 : Store iterator) out :
  Next s = (s1, out) ->
  exists res err, out = Returned (res, err) /\ NextCase s s1 res err.
Proof.
  intros H. destruct (Next_cases s) as (s1' & res & err & Heq & Hcase).
  rewrite Heq in H. inversion H; subst. eauto.
Qed.

Lemma Next_times_exhausted (n : nat) (s : Store iterator) :
  Daum.end_ (self s) = true ->
  Next_times n s = (s, repeat (Returned (zeroResult, Some ErrEndPage)) n).
Proof.
  intros Hend. induction n as [|n IH]; simpl.
  - reflexivity.
  - rewrite (Next_exhausted s Hend), IH. reflexivity.
Qed.

(** C2, as the code has it: a [Next] call made with [Page = 50] that gets
    a page from the server (it returns without error) leaves the end flag
    set, whatever [IsEnd] the server reported; from then on every [Next] call returns
    [ErrEndPage] at once: nothing goes on the wire and the store, the
    iterator included, is the same after any number of calls. *)
Theorem Next_page_50_exhausts (s s1 : Store iterator)
    (res : Daum.BookSearchResult WebResult) :
  Daum.Page (self s) = 50 ->
  Next s = (s1, Returned (res, None)) ->
  Daum.end_ (self s1) = true /\
  forall n : nat,
    Next_times n s1 = (s1, repeat (Returned (zeroResult, Some ErrEndPage)) n).
Proof.
  intros Hpage Hnext.
  assert (Hend : Daum.end_ (self s1) = true).
  { apply Next_inv in Hnext. destruct Hnext as (res' & err & Hout & Hcase).
    inversion Hout; subst res' err.
    inversion Hcase; subst; simpl.
    rewrite Hpage. apply orb_true_r. }
  split; [exact Hend|].
  intros n. now apply Next_times_exhausted.
Qed.

(** No operation clears the end flag. *)
Lemma perform_keeps_end (op : Daum.Op) (s : Store iterator) :
  Daum.end_ (self s) = true ->
  Daum.end_ (self (fst (perform op s))) = true.
Proof.
  intros Hend. destruct s as [bi w l]. simpl in Hend.
  destruct op as [|key|inv order|inv page|inv size|inv target]; simpl.
  - unfold bind. rewrite (Next_exhausted (mkStore bi w l) Hend). exact Hend.
  - exact Hend.
  - go_unfold.
    destruct ((order =? "accuracy")%string || (order =? "latest")%string);
      simpl; [destruct (recover_value inv)|]; exact Hend.
  - go_unfold.
    destruct ((1 <=? page) && (page <=? 50));
      simpl; [destruct (recover_value inv)|]; exact Hend.
  - go_unfold.
    destruct ((1 <=? size) && (size <=? 50));
      simpl; [destruct (recover_value inv)|]; exact Hend.
  - go_unfold.
    destruct ((target =? "title")%string || (target =? "isbn")%string
              || (target =? "publisher")%string || (target =? "person")%string
              || (target =? EmptyString)%string);
      simpl; [destruct (recover_value inv)|]; exact Hend.
Qed.

(** C5: once the end flag is true it stays true through every sequence of
    [Next], [AuthorizeWith], [SortBy], [Result], [Display] and [Filter],
    whatever their arguments, however they are invoked and whether or not
    they panic on the way. *)
Theorem end_is_permanent (ops : list Daum.Op) (s : Store iterator) :
  Daum.end_ (self s) = true ->
  Daum.end_ (self (perform_all ops s)) = true.
Proof.
  revert s. induction ops as [|op ops IH]; intros s Hend; simpl.
  - exact Hend.
  - apply IH. now apply perform_keeps_end.
Qed.

(** C9: when [Next] returns an error (request construction, [client.Do]
    or the JSON decoder failed) the iterator is what it was: [Page] is not
    incremented and the end flag keeps its value; if the failed call had
    put a request on the wire, the following call puts the very same
    request, for the same page, on the wire again. *)
Theorem Next_error_keeps_iterator (s s1 : Store iterator)
    (res : Daum.BookSearchResult WebResult) (e : error) :
  Next s = (s1, Returned (res, Some e)) ->
  self s1 = self s /\
  Daum.Page (self s1) = Daum.Page (self s) /\
  Daum.end_ (self s1) = Daum.end_ (self s) /\
  forall req : Request,
    wire s1 = (wire s ++ [req])%list ->
    req = requestOf (self s) /\
    wire (fst (Next s1)) = (wire s1 ++ [req])%list.
Proof.
  intros Hnext. apply Next_inv in Hnext.
  destruct Hnext as (res' & err & Hout & Hcase).
  inversion Hout; subst res' err.
  assert (Hno : forall (w : list Request) req, w = (w ++ [req])%list -> False).
  { intros w req Hw. apply (f_equal (@List.length Request)) in Hw.
    rewrite length_app in Hw. simpl in Hw. lia. }
  inversion Hcase; subst; cbn [self wire stderr];
    (split; [reflexivity|split; [reflexivity|split; [reflexivity|]]]);
    intros req Hreq; try (exfalso; exact (Hno _ _ Hreq)).
  all: apply app_inv_head in Hreq; inversion Hreq; subst req;
    split; [reflexivity|].
  all: destruct (Next_cases
                   (mkStore (self s) (wire s ++ [requestOf (self s)])
                      (stderr s)))
         as (s2 & res2 & err2 & Heq & Hcase2);
    rewrite Heq; simpl;
    inversion Hcase2; subst; simpl in *; try reflexivity; congruence.
Qed.

(** *** Setters in a chain *)

(** A setter applied to an argument it accepts returns, and nothing but
    the iterator changes. *)
Lemma apply_setter_valid (st : Daum.Setter) (s : Store iterator) :
  Daum.valid_argument st = true ->
  exists bi,
    Daum.apply_setter FormatKey st s
    = (mkStore bi (wire s) (stderr s), Returned tt).
Proof.
  intros Hv. destruct st; simpl in Hv |- *; go_unfold;
    try rewrite Hv; eexists; reflexivity.
Qed.

(** And it panics on every other argument. *)
Lemma apply_setter_invalid (st : Daum.Setter) (s : Store iterator) :
  Daum.valid_argument st = false ->
  exists v, Daum.apply_setter FormatKey st s = (s, Panicked v).
Proof.
  intros Hv. destruct st; simpl in Hv |- *; go_unfold;
    try rewrite Hv; try discriminate; eexists; reflexivity.
Qed.

(** C8: two different setters, each with an argument it accepts, can be
    called in either order: both orders return and leave the same
    iterator (and the same store). *)
Theorem setters_commute (a b : Daum.Setter) (s : Store iterator) :
  Daum.valid_argument a = true ->
  Daum.valid_argument b = true ->
  Daum.same_setter a b = false ->
  exists bi,
    bind (Daum.apply_setter FormatKey a)
      (fun _ => Daum.apply_setter FormatKey b) s
    = (mkStore bi (wire s) (stderr s), Returned tt) /\
    bind (Daum.apply_setter FormatKey b)
      (fun _ => Daum.apply_setter FormatKey a) s
    = (mkStore bi (wire s) (stderr s), Returned tt).
Proof.
  intros Ha Hb Hab.
  destruct a, b; simpl in Ha, Hb, Hab; try discriminate Hab;
    simpl; go_unfold; try rewrite Ha; try rewrite Hb; go_unfold;
    eexists; split; reflexivity.
Qed.

(** C6, as the code has it: the chain of the documented example puts
    exactly one request on the wire, a GET of the book-search endpoint
    with [page=1] and [size=5] in its query string, and returns what the
    transport and the decoder give for it: the zero result and the error
    when [client.Do] fails, else the decoded result and the decoder's
    error.  The [Documents] are the decoded ones, as many as the body
    holds. *)
Theorem search_chain_one_GET (key : string) :
  NewRequest_error "GET" Sample.example_URL = None ->
  exists s1 res err,
    Daum.search_chain WebResult FormatKey Authorization NewRequest_error
      transport Decode key 1 5
      (mkStore (Daum.BookSearch KeyPrefix "오브젝트") [] [])
    = (s1, Returned (res, err)) /\
    wire s1 =
      [ {| Method := "GET";
           URL := Sample.example_URL;
           Header := [(Authorization, FormatKey key)];
           Body := None;
           Close := true |} ] /\
    match transport []
            {| Method := "GET";
               URL := Sample.example_URL;
               Header := [(Authorization, FormatKey key)];
               Body := None;
               Close := true |}
    with
    | inl e => res = zeroResult /\ err = Some e
    | inr body => (res, err) = Decode body
    end.
Proof.
  intros Hreq.
  unfold Daum.search_chain, Daum.AuthorizeWith, bind, update.
  cbn [self wire stderr].
  rewrite Result_call_in_range by lia. cbn [self wire stderr].
  rewrite Display_call_in_range by lia. cbn [self wire stderr].
  remember (Daum.set_Size 5 _) as bi eqn:Hbi.
  assert (Hurl : Daum.requestURL bi = Sample.example_URL)
    by (subst bi; vm_compute; reflexivity).
  assert (Hkey : Daum.AuthKey bi = FormatKey key)
    by (subst bi; reflexivity).
  assert (Hend : Daum.end_ bi = false) by (subst bi; reflexivity).
  clear Hbi.
  assert (Hof : requestOf bi
                = {| Method := "GET";
                     URL := Sample.example_URL;
                     Header := [(Authorization, FormatKey key)];
                     Body := None;
                     Close := true |})
    by (unfold Daum.requestOf; rewrite Hurl, Hkey; reflexivity).
  destruct (Next_cases (mkStore bi [] [])) as (s1 & res & err & Heq & Hcase).
  exists s1, res, err. split; [exact Heq|].
  inversion Hcase as [He | e He Hr | e He Hr Hd | body r e He Hr Hd Hj
                      | body r He Hr Hd Hj];
    subst; cbn [self wire stderr app] in *.
  - rewrite Hend in He. discriminate He.
  - rewrite Hurl, Hreq in Hr. discriminate Hr.
  - rewrite Hof in *. split; [reflexivity|]. rewrite Hd. now split.
  - rewrite Hof in *. split; [reflexivity|]. rewrite Hd. now symmetry.
  - rewrite Hof in *. split; [reflexivity|]. rewrite Hd. now symmetry.
Qed.

(** *** More on the step function *)

Lemma incr_small (z : Z) : - 2 ^ 63 <= z + 1 < 2 ^ 63 -> incr z = z + 1.
Proof.
  intros H. unfold incr, wrap64. rewrite Z.mod_small; lia.
Qed.

(** X1: whatever happens in a [Next] call, it returns (it never panics),
    it leaves [Query], [AuthKey], [Sort], [Size] and [Target] and the log
    as they were, and it hands at most one request to the transport: the
    one for the page the iterator stood at. *)
Theorem Next_keeps_configuration (s s1 : Store iterator)
    (out : Completion (Daum.BookSearchResult WebResult * option error)) :
  Next s = (s1, out) ->
  (exists res err, out = Returned (res, err)) /\
  Daum.Query (self s1) = Daum.Query (self s) /\
  Daum.AuthKey (self s1) = Daum.AuthKey (self s) /\
  Daum.Sort (self s1) = Daum.Sort (self s) /\
  Daum.Size (self s1) = Daum.Size (self s) /\
  Daum.Target (self s1) = Daum.Target (self s) /\
  stderr s1 = stderr s /\
  (wire s1 = wire s \/ wire s1 = (wire s ++ [requestOf (self s)])%list).
Proof.
  intros Hnext. apply Next_inv in Hnext.
  destruct Hnext as (res & err & Hout & Hcase).
  split; [eauto|].
  inversion Hcase; subst; cbn [self wire stderr];
    repeat (split; [reflexivity|]); auto.
Qed.

(** X2: a [Next] call that delivers a page has sent exactly one request,
    the one for the current page, returns the result decoded from the
    body the transport gave, moves [Page] on by one and sets the end flag
    to the server's [IsEnd] or, past page 50, to true. *)
Theorem Next_delivers_current_page (s s1 : Store iterator)
    (res : Daum.BookSearchResult WebResult) :
  - 2 ^ 63 <= Daum.Page (self s) < 2 ^ 63 - 1 ->
  Next s = (s1, Returned (res, None)) ->
  wire s1 = (wire s ++ [requestOf (self s)])%list /\
  (exists body,
     transport (wire s) (requestOf (self s)) = inr body /\
     Decode body = (res, None)) /\
  Daum.Page (self s1) = Daum.Page (self s) + 1 /\
  Daum.end_ (self s1)
  = Daum.IsEnd (Daum.Meta WebResult res) || (50 <=? Daum.Page (self s)).
Proof.
  intros Hint Hnext. apply Next_inv in Hnext.
  destruct Hnext as (res' & err & Hout & Hcase).
  inversion Hout; subst res' err.
  inversion Hcase; subst; cbn [self wire stderr Daum.Page Daum.set_Page
                                 Daum.set_end Daum.end_].
  rewrite incr_small by lia.
  split; [reflexivity|]. split; [eauto|]. split; [reflexivity|].
  f_equal. apply eq_true_iff_eq.
  rewrite Z.ltb_lt, Z.leb_le. lia.
Qed.

(** The measure of the pages still to come. *)
Lemma delivered_exhausted (n : nat) (s : Store iterator) :
  Daum.end_ (self s) = true ->
  Daum.delivered WebResult (snd (Next_times n s)) = O.
Proof.
  intros Hend. rewrite (Next_times_exhausted n s Hend). cbn [snd].
  induction n as [|n IH]; simpl; auto.
Qed.

Lemma Next_times_step (n : nat) (s : Store iterator) :
  Next_times (S n) s
  = (fst (Next_times n (fst (Next s))),
     snd (Next s) :: snd (Next_times n (fst (Next s)))).
Proof.
  cbn [Daum.Next_times]. destruct (Next s) as [s1 out]. cbn [fst snd].
  destruct (Next_times n s1) as [s2 outs]. reflexivity.
Qed.

(** X3: an iterator standing at a page within 1..50 delivers at most
    [51 - Page] pages, however many times [Next] is called and whatever
    the server answers: fifty pages at most from a fresh iterator. *)
Theorem pages_are_bounded (n : nat) (s : Store iterator) :
  1 <= Daum.Page (self s) <= 50 ->
  (Daum.delivered WebResult (snd (Next_times n s))
   <= Z.to_nat (51 - Daum.Page (self s)))%nat.
Proof.
  revert s. induction n as [|n IH]; intros s Hpage.
  - simpl. lia.
  - rewrite Next_times_step. cbn [snd].
    destruct (Next_cases s) as (s1 & res & err & Heq & Hcase).
    rewrite Heq. cbn [fst snd]. clear Heq.
    destruct Hcase; cbn [Daum.delivered].
    + rewrite delivered_exhausted by assumption. lia.
    + specialize (IH s Hpage). lia.
    + specialize (IH (mkStore (self s) (wire s ++ [requestOf (self s)])
                        (stderr s)) Hpage).
      cbn [self] in IH. lia.
    + specialize (IH (mkStore (self s) (wire s ++ [requestOf (self s)])
                        (stderr s)) Hpage).
      cbn [self] in IH. lia.
    + rewrite incr_small by lia.
      destruct (Z.eq_dec (Daum.Page (self s)) 50) as [H50|H50].
      * rewrite delivered_exhausted.
        -- lia.
        -- cbn [self Daum.end_ Daum.set_end]. rewrite H50.
           apply orb_true_r.
      * match goal with
        | |- (S (Daum.delivered _ (snd (Daum.Next_times _ _ _ _ _ _ ?s'))) <= _)%nat =>
            specialize (IH s')
        end.
        cbn [self Daum.Page Daum.set_Page Daum.set_end] in IH.
        specialize (IH ltac:(lia)). lia.
Qed.

(** *** What goes on the wire *)







(** X5: an exhausted iterator is silent for good: whatever is called on
    it afterwards, setters and [Next] alike, nothing more goes on the
    wire. *)
Theorem exhausted_sends_nothing (ops : list Daum.Op) (s : Store iterator) :
  Daum.end_ (self s) = true ->
  wire (perform_all ops s) = wire s.
Proof.
  revert s. induction ops as [|op ops IH]; intros s Hend.
  - reflexivity.
  - cbn [Daum.perform_all].
    rewrite IH by now apply perform_keeps_end.
    destruct s as [bi w l]. cbn [self] in Hend.
    destruct op as [|key|inv order|inv page|inv size|inv target];
      cbn [Daum.perform].
    + unfold bind. rewrite (Next_exhausted (mkStore bi w l) Hend).
      reflexivity.
    + reflexivity.
    + go_unfold.
      destruct ((order =? "accuracy")%string || (order =? "latest")%string);
        [destruct (recover_value inv)|]; reflexivity.
    + go_unfold.
      destruct ((1 <=? page) && (page <=? 50));
        [destruct (recover_value inv)|]; reflexivity.
    + go_unfold.
      destruct ((1 <=? size) && (size <=? 50));
        [destruct (recover_value inv)|]; reflexivity.
    + go_unfold.
      destruct ((target =? "title")%string || (target =? "isbn")%string
                || (target =? "publisher")%string
                || (target =? "person")%string
                || (target =? EmptyString)%string);
        [destruct (recover_value inv)|]; reflexivity.
Qed.

(** X6: of two calls of the same setter, each with an argument it
    accepts, the later one wins: the chain leaves what the later call
    alone would leave. *)
Theorem last_setter_wins (a b : Daum.Setter) (s : Store iterator) :
  Daum.valid_argument a = true ->
  Daum.valid_argument b = true ->
  Daum.same_setter a b = true ->
  bind (Daum.apply_setter FormatKey a)
    (fun _ => Daum.apply_setter FormatKey b) s
  = Daum.apply_setter FormatKey b s.
Proof.
  intros Ha Hb Hab.
  destruct a, b; simpl in Ha, Hb, Hab; try discriminate Hab;
    simpl; go_unfold; try rewrite Ha; try rewrite Hb; go_unfold;
    reflexivity.
Qed.

(** X19: the chain [BookSearch(query).AuthorizeWith(key).Result(page)
    .Display(size).Next()] for any query, key, page and size.  With page
    and size within 1..50 (and [http.NewRequest] taking the URL) it sends
    exactly one request, the GET for that query, page and size with the
    default sort order and no target, and returns the transport's error
    or the decoded body; with a page or a size outside 1..50 it panics
    before anything is sent. *)
Theorem search_chain_request (query key : string) (page size : Z) :
  let req :=
    {| Method := "GET";
       URL := "https://dapi.kakao.com/v3/search/book?query="
              ++ QueryEscape (TrimSpace query)
              ++ "&sort=accuracy&page=" ++ Itoa page
              ++ "&size=" ++ Itoa size ++ "&target=";
       Header := [(Authorization, FormatKey key)];
       Body := None;
       Close := true |} in
  (1 <= page <= 50 -> 1 <= size <= 50 ->
   NewRequest_error "GET" (URL req) = None ->
   exists s1,
     Daum.search_chain WebResult FormatKey Authorization NewRequest_error
       transport Decode key page size
       (mkStore (Daum.BookSearch KeyPrefix query) [] [])
     = (s1,
        Returned
          match transport [] req with
          | inl e => (zeroResult, Some e)
          | inr body => Decode body
          end) /\
     wire s1 = [req])
  /\
  (~ (1 <= page <= 50 /\ 1 <= size <= 50) ->
   exists s1 v,
     Daum.search_chain WebResult FormatKey Authorization NewRequest_error
       transport Decode key page size
       (mkStore (Daum.BookSearch KeyPrefix query) [] [])
     = (s1, Panicked v) /\
     wire s1 = []).
Proof.
  cbv zeta. split.
  - intros Hpage Hsize Hreq.
    unfold Daum.search_chain, Daum.AuthorizeWith, bind, update.
    cbn [self wire stderr].
    rewrite Result_call_in_range by assumption. cbn [self wire stderr].
    rewrite Display_call_in_range by assumption. cbn [self wire stderr].
    remember (Daum.set_Size size _) as bi eqn:Hbi.
    assert (Hurl : Daum.requestURL bi
                   = "https://dapi.kakao.com/v3/search/book?query="
                     ++ QueryEscape (TrimSpace query)
                     ++ "&sort=accuracy&page=" ++ Itoa page
                     ++ "&size=" ++ Itoa size ++ "&target=")
      by (subst bi; reflexivity).
    assert (Hkey : Daum.AuthKey bi = FormatKey key)
      by (subst bi; reflexivity).
    assert (Hend : Daum.end_ bi = false) by (subst bi; reflexivity).
    clear Hbi.
    assert (Hof : requestOf bi
                  = {| Method := "GET";
                       URL := "https://dapi.kakao.com/v3/search/book?query="
                              ++ QueryEscape (TrimSpace query)
                              ++ "&sort=accuracy&page=" ++ Itoa page
                              ++ "&size=" ++ Itoa size ++ "&target=";
                       Header := [(Authorization, FormatKey key)];
                       Body := None;
                       Close := true |})
      by (unfold Daum.requestOf; rewrite Hurl, Hkey; reflexivity).
    cbn [URL] in Hreq.
    destruct (Next_cases (mkStore bi [] []))
      as (s1 & res & err & Heq & Hcase).
    exists s1. rewrite Heq.
    destruct Hcase as [He | e He Hr | e He Hr Hd | body r e He Hr Hd Hj
                       | body r He Hr Hd Hj];
      cbn [self wire stderr app] in *.
    + rewrite Hend in He. discriminate He.
    + rewrite Hurl, Hreq in Hr. discriminate Hr.
    + rewrite Hof in *. rewrite Hd. split; reflexivity.
    + rewrite Hof in *. rewrite Hd, Hj. split; reflexivity.
    + rewrite Hof in *. rewrite Hd, Hj. split; reflexivity.
  - intros Hbad.
    unfold Daum.search_chain, Daum.AuthorizeWith, bind, update.
    cbn [self wire stderr].
    destruct ((1 <=? page) && (page <=? 50)) eqn:Hp.
    + apply andb_true_iff in Hp. rewrite !Z.leb_le in Hp.
      rewrite Result_call_in_range by assumption. cbn [self wire stderr].
      assert (Hs : (1 <=? size) && (size <=? 50) = false).
      { apply andb_false_iff.
        destruct (Z.leb_spec 1 size); [|now left].
        destruct (Z.leb_spec size 50); [|now right].
        exfalso. apply Hbad. lia. }
      go_unfold. rewrite Hs. do 2 eexists. split; reflexivity.
    + go_unfold. rewrite Hp. do 2 eexists. split; reflexivity.
Qed.

End DaumFacts.

(** ** The recover branch of the setters *)

Section RecoverBranch.

(** The shape all five setters share: a guarded assignment, a panic with
    an error otherwise, then the recover block.  The block's branch is
    passed by unless [recover()] has a panic to report and the argument
    was accepted. *)
Lemma guard_reached_iff {R : Type} (accepted : bool) (assign : R -> R)
    (e : error) (inv : Invocation) (s : Store R) :
  skips_recover_branch
    (bind (if accepted then update assign else panic (PanicErr e))
       (fun _ : unit => recover_guard inv)) s
  <-> recover_value inv = None \/ accepted = false.
Proof.
  unfold skips_recover_branch, recover_guard, recover, log_Panicln, bind,
    ret, panic, update.
  destruct accepted; [destruct (recover_value inv) as [v|]|];
    cbn [self wire stderr fst snd].
  - split.
    + intros [Hlog _]. exfalso.
      apply (f_equal (@List.length PanicValue)) in Hlog.
      rewrite length_app in Hlog. cbn in Hlog. lia.
    + intros [H|H]; discriminate H.
  - split; [auto|]. intros _. split; [reflexivity | discriminate].
  - split; [auto|]. intros _. split; [reflexivity | discriminate].
Qed.

(** C4, as the code has it: for each of [SortBy], [Result], [Display],
    [Filter] and [ThresholdAt], every invocation, every argument and
    every store, the recover branch is passed by (nothing is logged and
    the setter does not end in the panic of [log.Panicln]) exactly when
    [recover()] has no panic to report or the argument is refused.  It
    is so in every call of a setter, where [recover()] is nil, and for
    every refused argument, which panics before the block; the branch
    runs only when the setter is itself the deferred function of a
    panicking goroutine and accepts its argument. *)
Theorem recover_branch_reached_iff (inv : Invocation)
    (s : Store Daum.BookSearchIterator)
    (t : Store Vision.FaceDetectInitializer)
    (order target : string) (page size : Z) (val : float) :
  (skips_recover_branch (Daum.SortBy inv order) s
   <-> recover_value inv = None
       \/ Daum.valid_argument (Daum.SetSortBy order) = false) /\
  (skips_recover_branch (Daum.Result inv page) s
   <-> recover_value inv = None
       \/ Daum.valid_argument (Daum.SetResult page) = false) /\
  (skips_recover_branch (Daum.Display inv size) s
   <-> recover_value inv = None
       \/ Daum.valid_argument (Daum.SetDisplay size) = false) /\
  (skips_recover_branch (Daum.Filter inv target) s
   <-> recover_value inv = None
       \/ Daum.valid_argument (Daum.SetFilter target) = false) /\
  (skips_recover_branch (Vision.ThresholdAt inv val) t
   <-> recover_value inv = None
       \/ Vision.valid_argument (Vision.SetThresholdAt val) = false).
Proof.
  split; [|split; [|split; [|split]]].
  - apply (guard_reached_iff _ (Daum.set_Sort order)).
  - apply (guard_reached_iff _ (Daum.set_Page page)).
  - apply (guard_reached_iff _ (Daum.set_Size size)).
  - apply (guard_reached_iff _ (Daum.set_Target target)).
  - apply (guard_reached_iff _ (Vision.set_Threshold val)).
Qed.

(** The other side: run as the deferred function of a panicking goroutine
    with an argument it accepts, [Result] reaches the branch. *)
Lemma Result_deferred_in_panic (v : PanicValue) (page : Z)
    (s : Store Daum.BookSearchIterator) :
  1 <= page <= 50 ->
  Daum.Result (DeferredRun (Some v)) page s
  = (mkStore (Daum.set_Page page (self s)) (wire s) (stderr s ++ [v]),
     Panicked (PanicLn v)).
Proof.
  intros Hin. unfold Daum.Result, recover_guard, recover, log_Panicln,
    bind, ret, panic, update. cbn [self wire stderr recover_value].
  assert (Hr : (1 <=? page) && (page <=? 50) = true).
  { apply andb_true_intro. split; apply Z.leb_le; lia. }
  rewrite Hr. reflexivity.
Qed.

End RecoverBranch.

(** ** Header maps *)

(** A field added to a header map is in it, with the fields that were
    there, and nothing else. *)
Lemma Header_Add_fields (key value : string) (h : list (string * string))
    (field : string * string) :
  In field (Header_Add key value h) <-> field = (key, value) \/ In field h.
Proof.
  induction h as [|[k v] h IH]; cbn [Header_Add].
  - cbn. intuition congruence.
  - destruct (String.leb k key); cbn [In]; [rewrite IH|];
      intuition congruence.
Qed.

Lemma Header_Add_length (key value : string) (h : list (string * string)) :
  List.length (Header_Add key value h) = S (List.length h).
Proof.
  induction h as [|[k v] h IH]; cbn [Header_Add]; [reflexivity|].
  destruct (String.leb k key); cbn [List.length]; [now rewrite IH|].
  reflexivity.
Qed.

(** Two fields with different keys put on a fresh header map give the
    same map in either order. *)
Lemma Header_Add_either_order (k1 v1 k2 v2 : string) :
  k1 <> k2 ->
  Header_Add k1 v1 (Header_Add k2 v2 []) = Header_Add k2 v2 (Header_Add k1 v1 []).
Proof.
  intros Hne. cbn [Header_Add].
  destruct (String.leb k2 k1) eqn:H21; destruct (String.leb k1 k2) eqn:H12;
    try reflexivity.
  - exfalso. apply Hne. now apply String.leb_antisym.
  - exfalso. destruct (String.leb_total k1 k2); congruence.
Qed.

(** ** The upload cap of the face detector *)

Section VisionFacts.

Variable KeyPrefix : string.
Variable FormatKey : string -> string.
Variable Authorization : string.
Variable prefix : string.
Variable Sprintf_f : float -> string.
Variable os_Open : string -> error + Vision.File.
Variable CreateFormFile_error : string -> string -> option error.
Variable multipartBody : string -> string -> string -> string.
Variable FormDataContentType : string.
Variable NewRequest_error : string -> string -> option error.
Variable transport : list Request -> Request -> error + string.
Variable Decode : string -> Vision.FaceDetectResult * option error.

Local Abbreviation Collect :=
  (Vision.Collect Authorization prefix Sprintf_f os_Open CreateFormFile_error
     multipartBody FormDataContentType NewRequest_error transport Decode).

(** C1, what the code does: for a file that opens and whose size exceeds
    the cap, [Collect] returns before any request is built or sent, but
    the error it returns is the nil error of [os.Open]: the caller gets
    the zero result and no error. *)
Theorem Collect_oversized_returns_nil_error
    (s : Store Vision.FaceDetectInitializer) (file : Vision.File) (size : Z) :
  Vision.withFile (self s) = true ->
  os_Open (Vision.Filename (self s)) = inr file ->
  Vision.stat_Size file = Some size ->
  Vision.maxUpload < size ->
  Collect s = (s, Returned (Vision.zeroResult, None)).
Proof.
  intros Hwith Hopen Hstat Hsize.
  unfold Vision.Collect, bind, receiver, ret.
  rewrite Hwith. cbv zeta. rewrite Hopen, Hstat.
  assert (Hcap : (Vision.maxUpload <? size) = true).
  { apply Z.ltb_lt. exact Hsize. }
  rewrite Hcap. reflexivity.
Qed.

(** *** The rest of [Collect] *)

Local Abbreviation send :=
  (Vision.send Authorization transport Decode).
Local Abbreviation answer := (Vision.answer transport Decode).
Local Abbreviation urlRequest :=
  (Vision.urlRequest Authorization prefix Sprintf_f).
Local Abbreviation uploadRequest :=
  (Vision.uploadRequest Authorization prefix Sprintf_f multipartBody
     FormDataContentType).
Local Abbreviation detector_perform :=
  (Vision.perform FormatKey Authorization prefix Sprintf_f os_Open
     CreateFormFile_error multipartBody FormDataContentType NewRequest_error
     transport Decode).
Local Abbreviation detector_perform_all :=
  (Vision.perform_all FormatKey Authorization prefix Sprintf_f os_Open
     CreateFormFile_error multipartBody FormDataContentType NewRequest_error
     transport Decode).

Lemma send_spec (req : Request) (s : Store Vision.FaceDetectInitializer) :
  send req s
  = (mkStore (self s)
       (wire s
        ++ [ {| Method := Method req;
                URL := URL req;
                Header := Header_Add Authorization
                            (Vision.AuthKey (self s)) (Header req);
                Body := Body req;
                Close := true |} ])
       (stderr s),
     Returned
       (answer (wire s)
          {| Method := Method req;
             URL := URL req;
             Header := Header_Add Authorization (Vision.AuthKey (self s))
                         (Header req);
             Body := Body req;
             Close := true |})).
Proof.
  unfold Vision.send, Vision.answer, bind, receiver, client_Do, ret.
  cbn [self wire stderr].
  destruct (transport (wire s) _) as [e|body]; [reflexivity|].
  destruct (Decode body) as [res [e|]]; reflexivity.
Qed.

(** X9: an image given by URL.  With [withFile] off, [Collect] does not
    look at the file system at all: if [http.NewRequest] takes the URL it
    sends exactly one request, a POST without body to
    [prefix/face/detect] with the threshold and the image URL in the
    query string and the authorization header, and returns the transport's
    error or the decoded body; if not, it returns that error and sends
    nothing. *)
Theorem Collect_by_URL (s : Store Vision.FaceDetectInitializer) :
  Vision.withFile (self s) = false ->
  Collect s
  = match NewRequest_error "POST" (URL (urlRequest (self s))) with
    | Some e => (s, Returned (Vision.zeroResult, Some e))
    | None =>
        (mkStore (self s) (wire s ++ [urlRequest (self s)]) (stderr s),
         Returned (answer (wire s) (urlRequest (self s))))
    end.
Proof.
  intros Hwith. unfold Vision.Collect, bind, receiver, ret.
  rewrite Hwith. cbv zeta. cbn [URL Vision.urlRequest].
  destruct (NewRequest_error "POST" _); [reflexivity|].
  rewrite send_spec. reflexivity.
Qed.

(** X10: an image file within the cap.  For a file that opens, whose size
    is at most 2*1024*1024 bytes (the cap itself included), for which the
    form part is created and which reads to its end, and with
    [http.NewRequest] taking the upload URL, [Collect] sends exactly one
    request and returns the transport's error or the decoded body.  The
    request is a POST to [prefix/face/detect] that closes the connection;
    its body is the multipart form of the threshold and the file's bytes;
    its header map holds two fields, the content type of the form and
    the authorization key. *)
Theorem Collect_uploads_within_cap
    (s : Store Vision.FaceDetectInitializer) (file : Vision.File)
    (size : Z) (bytes : string) :
  Vision.withFile (self s) = true ->
  os_Open (Vision.Filename (self s)) = inr file ->
  Vision.stat_Size file = Some size ->
  size <= 2 * 1024 * 1024 ->
  CreateFormFile_error "image" (Vision.Filename (self s)) = None ->
  Vision.contents file = inr bytes ->
  NewRequest_error "POST" (prefix ++ "/face/detect") = None ->
  exists req : Request,
    Collect s
    = (mkStore (self s) (wire s ++ [req]) (stderr s),
       Returned (answer (wire s) req)) /\
    Method req = "POST" /\
    URL req = prefix ++ "/face/detect" /\
    Close req = true /\
    Body req
    = Some (multipartBody (Sprintf_f (Vision.Threshold (self s)))
              (Vision.Filename (self s)) bytes) /\
    List.length (Header req) = 2%nat /\
    forall field : string * string,
      In field (Header req)
      <-> field = ("Content-Type", FormDataContentType)
          \/ field = (Authorization, Vision.AuthKey (self s)).
Proof.
  intros Hwith Hopen Hstat Hsize Hform Hread Hreq.
  exists (uploadRequest (self s) bytes).
  split.
  - unfold Vision.Collect, bind, receiver, ret.
    rewrite Hwith. cbv zeta. rewrite Hopen, Hstat.
    assert (Hcap : (Vision.maxUpload <? size) = false).
    { apply Z.ltb_ge. unfold Vision.maxUpload. exact Hsize. }
    rewrite Hcap, Hform, Hread, Hreq.
    rewrite send_spec. reflexivity.
  - cbn [Method URL Close Body Header Vision.uploadRequest].
    repeat (split; [reflexivity|]).
    split; [apply Header_Add_length|].
    intros field. rewrite Header_Add_fields. cbn [In].
    split; [intros [H|[H|[]]] | intros [H|H]]; subst; auto.
Qed.

(** X11: the failures before the transfer.  When the file does not open,
    when the form part cannot be created, when the file cannot be read or
    when [http.NewRequest] refuses the upload URL, [Collect] returns the
    zero result with that very error and nothing goes on the wire. *)
Theorem Collect_upload_errors
    (s : Store Vision.FaceDetectInitializer) (e : error) :
  Vision.withFile (self s) = true ->
  (os_Open (Vision.Filename (self s)) = inl e
   \/ exists file size,
        os_Open (Vision.Filename (self s)) = inr file /\
        Vision.stat_Size file = Some size /\
        size <= 2 * 1024 * 1024 /\
        (CreateFormFile_error "image" (Vision.Filename (self s)) = Some e
         \/ CreateFormFile_error "image" (Vision.Filename (self s)) = None /\
            (Vision.contents file = inl e
             \/ (exists bytes, Vision.contents file = inr bytes) /\
                NewRequest_error "POST" (prefix ++ "/face/detect")
                = Some e))) ->
  Collect s = (s, Returned (Vision.zeroResult, Some e)).
Proof.
  intros Hwith Hfail.
  unfold Vision.Collect, bind, receiver, ret.
  rewrite Hwith. cbv zeta.
  destruct Hfail as [Hopen|(file & size & Hopen & Hstat & Hsize & Hrest)].
  - rewrite Hopen. reflexivity.
  - rewrite Hopen, Hstat.
    assert (Hcap : (Vision.maxUpload <? size) = false).
    { apply Z.ltb_ge. unfold Vision.maxUpload. exact Hsize. }
    rewrite Hcap.
    destruct Hrest as [Hform|(Hform & [Hread|((bytes & Hread) & Hreq)])].
    + rewrite Hform. reflexivity.
    + rewrite Hform, Hread. reflexivity.
    + rewrite Hform, Hread, Hreq. reflexivity.
Qed.

(** X12: a file whose [Stat] fails.  [Collect] drops the error of
    [file.Stat()] and calls [Size] on the nil [FileInfo] it got: for a
    file that opens but cannot be stat-ed it panics with a nil
    dereference instead of returning an error, and sends nothing. *)
Theorem Collect_panics_when_Stat_fails
    (s : Store Vision.FaceDetectInitializer) (file : Vision.File) :
  Vision.withFile (self s) = true ->
  os_Open (Vision.Filename (self s)) = inr file ->
  Vision.stat_Size file = None ->
  Collect s
  = (s, Panicked
          (PanicRuntime "invalid memory address or nil pointer dereference")).
Proof.
  intros Hwith Hopen Hstat.
  unfold Vision.Collect, bind, receiver, ret, panic.
  rewrite Hwith. cbv zeta. rewrite Hopen, Hstat. reflexivity.
Qed.

(** [Collect] reads the initializer and never writes it. *)
Lemma Collect_receiver (s : Store Vision.FaceDetectInitializer) :
  self (fst (Collect s)) = self s.
Proof.
  unfold Vision.Collect, bind, receiver, ret, panic.
  destruct (Vision.withFile (self s)); cbv zeta.
  - destruct (os_Open (Vision.Filename (self s))) as [e|file];
      [reflexivity|].
    destruct (Vision.stat_Size file) as [size|]; [|reflexivity].
    destruct (Vision.maxUpload <? size); [reflexivity|].
    destruct (CreateFormFile_error "image" _); [reflexivity|].
    destruct (Vision.contents file) as [e|bytes]; [reflexivity|].
    destruct (NewRequest_error "POST" _); [reflexivity|].
    rewrite send_spec. reflexivity.
  - destruct (NewRequest_error "POST" _); [reflexivity|].
    rewrite send_spec. reflexivity.
Qed.

(** X13: whatever it meets, [Collect] leaves the initializer and the log
    as they were and hands at most one request to the transport; that
    request is a POST that closes the connection and carries the
    authorization key of the initializer in its header map. *)
Theorem Collect_keeps_initializer (s : Store Vision.FaceDetectInitializer) :
  self (fst (Collect s)) = self s /\
  stderr (fst (Collect s)) = stderr s /\
  (wire (fst (Collect s)) = wire s
   \/ exists req,
        wire (fst (Collect s)) = (wire s ++ [req])%list /\
        Method req = "POST" /\
        Close req = true /\
        In (Authorization, Vision.AuthKey (self s)) (Header req)).
Proof.
  unfold Vision.Collect, bind, receiver, ret, panic.
  destruct (Vision.withFile (self s)); cbv zeta.
  - destruct (os_Open (Vision.Filename (self s))) as [e|file];
      [cbn [fst]; auto|].
    destruct (Vision.stat_Size file) as [size|]; [|cbn [fst]; auto].
    destruct (Vision.maxUpload <? size); [cbn [fst]; auto|].
    destruct (CreateFormFile_error "image" _); [cbn [fst]; auto|].
    destruct (Vision.contents file) as [e|bytes]; [cbn [fst]; auto|].
    destruct (NewRequest_error "POST" _); [cbn [fst]; auto|].
    rewrite send_spec. cbn [fst self wire stderr].
    repeat (split; [reflexivity|]). right.
    eexists. split; [reflexivity|]. cbn [Method Close Header].
    repeat (split; [reflexivity|]).
    apply Header_Add_fields. now left.
  - destruct (NewRequest_error "POST" _); [cbn [fst]; auto|].
    rewrite send_spec. cbn [fst self wire stderr].
    repeat (split; [reflexivity|]). right.
    eexists. split; [reflexivity|]. cbn [Method Close Header].
    repeat (split; [reflexivity|]).
    apply Header_Add_fields. now left.
Qed.

(** *** The setters of the detector *)

(** X14: the image source chosen last decides.  [WithFile] and [WithURL]
    both keep the file name and the URL they were given, but each resets
    the choice of the other: called in the two orders they leave
    initializers that differ in [withFile], so that [Collect] uploads the
    file after [WithURL(u).WithFile(f)] and sends the URL after
    [WithFile(f).WithURL(u)]. *)
Theorem image_source_last_wins (url filename : string)
    (s : Store Vision.FaceDetectInitializer) :
  let file_last :=
    fst (bind (Vision.WithURL url) (fun _ => Vision.WithFile filename) s) in
  let url_last :=
    fst (bind (Vision.WithFile filename) (fun _ => Vision.WithURL url) s) in
  Vision.withFile (self file_last) = true /\
  Vision.withFile (self url_last) = false /\
  Vision.Filename (self file_last) = filename /\
  Vision.Filename (self url_last) = filename /\
  Vision.ImageURL (self file_last) = url /\
  Vision.ImageURL (self url_last) = url /\
  file_last <> url_last.
Proof.
  cbv zeta. unfold Vision.WithURL, Vision.WithFile, bind, update.
  cbn [fst self wire stderr Vision.withFile Vision.Filename Vision.ImageURL
         Vision.set_withFile Vision.set_Filename Vision.set_ImageURL].
  repeat (split; [reflexivity|]).
  intros H. apply (f_equal (fun t => Vision.withFile (self t))) in H.
  cbn [self Vision.withFile] in H. discriminate H.
Qed.

(** Two floats that compare are numbers: neither is a NaN. *)
Lemma leb_excludes_nan (x y : float) :
  PrimFloat.leb x y = true ->
  PrimFloat.eqb x x = true /\ PrimFloat.eqb y y = true.
Proof.
  rewrite FloatAxioms.leb_spec, !FloatAxioms.eqb_spec.
  assert (Hrefl : forall f,
             f <> SpecFloat.S754_nan -> SpecFloat.SFeqb f f = true).
  { intros [s| s| |s m e] Hf; unfold SpecFloat.SFeqb; cbn.
    - reflexivity.
    - destruct s; reflexivity.
    - congruence.
    - destruct s; rewrite Z.compare_refl, Pos.compare_cont_refl;
        reflexivity. }
  intros Hle.
  split; apply Hrefl; intros Hnan; rewrite Hnan in Hle;
    unfold SpecFloat.SFleb in Hle; cbn in Hle;
    try discriminate Hle;
    destruct (FloatOps.Prim2SF x); discriminate Hle.
Qed.

Lemma ThresholdAt_threshold (inv : Invocation) (val : float)
    (s : Store Vision.FaceDetectInitializer) :
  let T := Vision.Threshold (self (fst (Vision.ThresholdAt inv val s))) in
  T = Vision.Threshold (self s)
  \/ T = val /\
     (PrimFloat.leb 0x1.999999999999ap-4 val && PrimFloat.leb val 1)%bool
     = true.
Proof.
  cbv zeta.
  unfold Vision.ThresholdAt, recover_guard, recover, log_Panicln, bind, ret,
    panic, update.
  destruct (PrimFloat.leb 0x1.999999999999ap-4 val && PrimFloat.leb val 1)%bool;
    [destruct (recover_value inv)|]; cbn [fst self]; auto.
Qed.

(** X15: the threshold never leaves its range.  Starting from
    [FaceDetect()] and whatever is called on the detector afterwards, in
    any order and with any arguments, the threshold it holds (and sends)
    is a float between 0.1 and 1.0, never a NaN. *)
Theorem threshold_stays_in_range (ops : list Vision.Op) :
  let T :=
    Vision.Threshold
      (self (detector_perform_all ops
               (mkStore (Vision.FaceDetect KeyPrefix) [] []))) in
  PrimFloat.leb 0x1.999999999999ap-4 T = true /\
  PrimFloat.leb T 1 = true /\
  PrimFloat.eqb T T = true.
Proof.
  cbv zeta.
  assert (Hgen : forall ops s,
             (PrimFloat.leb 0x1.999999999999ap-4 (Vision.Threshold (self s))
              && PrimFloat.leb (Vision.Threshold (self s)) 1)%bool = true ->
             (PrimFloat.leb 0x1.999999999999ap-4
                (Vision.Threshold (self (detector_perform_all ops s)))
              && PrimFloat.leb
                   (Vision.Threshold (self (detector_perform_all ops s))) 1)%bool
             = true).
  { clear ops. induction ops as [|op ops IH]; intros s Hs.
    - exact Hs.
    - cbn [Vision.perform_all]. apply IH.
      destruct op as [url|filename|key|inv val|]; cbn [Vision.perform].
      + exact Hs.
      + exact Hs.
      + exact Hs.
      + destruct (ThresholdAt_threshold inv val s) as [H|[H Hval]];
          cbv zeta in H; rewrite H; assumption.
      + unfold bind, ret.
        pose proof (Collect_receiver s) as Hself.
        destruct (Collect s) as [s1 [out|v]]; cbn [fst] in *;
          rewrite Hself; exact Hs. }
  specialize (Hgen ops (mkStore (Vision.FaceDetect KeyPrefix) [] [])
                eq_refl).
  apply andb_true_iff in Hgen. destruct Hgen as [Hlo Hhi].
  split; [exact Hlo|]. split; [exact Hhi|].
  exact (proj2 (leb_excludes_nan _ _ Hlo)).
Qed.

(** X16: [ThresholdAt] turns a NaN away, like every value outside the
    range: it panics and leaves the store as it was, however it is
    invoked. *)
Theorem ThresholdAt_rejects_NaN (val : float) (inv : Invocation)
    (s : Store Vision.FaceDetectInitializer) :
  PrimFloat.eqb val val = false ->
  Vision.ThresholdAt inv val s
  = (s, Panicked
          (PanicErr (errors_New "threshold must be between 0.1 and 1.0"))).
Proof.
  intros Hnan.
  unfold Vision.ThresholdAt, recover_guard, recover, bind, ret, panic, update.
  destruct (PrimFloat.leb 0x1.999999999999ap-4 val) eqn:Hlo.
  - destruct (leb_excludes_nan _ _ Hlo) as [_ Hval]. congruence.
  - reflexivity.
Qed.

(** X20: the setters of the detector that write different fields can be
    called in either order.  Any two of [WithURL], [WithFile],
    [AuthorizeWith] and [ThresholdAt], other than the pair [WithURL],
    [WithFile], each with an argument it accepts, leave the same
    initializer in both orders. *)
Theorem detector_setters_commute (a b : Vision.Setter)
    (s : Store Vision.FaceDetectInitializer) :
  Vision.valid_argument a = true ->
  Vision.valid_argument b = true ->
  Vision.independent a b = true ->
  exists fi,
    bind (Vision.apply_setter FormatKey a)
      (fun _ => Vision.apply_setter FormatKey b) s
    = (mkStore fi (wire s) (stderr s), Returned tt) /\
    bind (Vision.apply_setter FormatKey b)
      (fun _ => Vision.apply_setter FormatKey a) s
    = (mkStore fi (wire s) (stderr s), Returned tt).
Proof.
  intros Ha Hb Hab.
  destruct a, b; cbn [Vision.valid_argument Vision.independent] in Ha, Hb, Hab;
    try discriminate Hab;
    cbn [Vision.apply_setter];
    unfold Vision.WithURL, Vision.WithFile, Vision.AuthorizeWith,
      Vision.ThresholdAt, recover_guard, recover, bind, ret, panic, update;
    cbn [self wire stderr recover_value];
    try rewrite Ha; try rewrite Hb;
    cbn [self wire stderr];
    eexists; split; reflexivity.
Qed.

End VisionFacts.

(** ** The escaped query *)

Section EscapedQuery.

Variable KeyPrefix : string.

(** The two hexadecimal digits of an escape are unreserved characters. *)
Lemma hex_digits_pass (c : ascii) :
  shouldEscape (upperhex (Nat.div (nat_of_ascii c) 16)) = false /\
  shouldEscape (upperhex (Nat.modulo (nat_of_ascii c) 16)) = false.
Proof.
  destruct c as [[] [] [] [] [] [] [] []]; split; reflexivity.
Qed.

Lemma QueryEscape_alphabet (s : string) :
  Forall (fun c => shouldEscape c = false \/ c = "%"%char \/ c = "+"%char)
    (list_ascii_of_string (QueryEscape s)).
Proof.
  induction s as [|c s IH]; cbn [QueryEscape].
  - constructor.
  - destruct (Nat.eqb (nat_of_ascii c) 32).
    + constructor; auto.
    + destruct (shouldEscape c) eqn:Hc; cbn [list_ascii_of_string].
      * destruct (hex_digits_pass c) as [H1 H2].
        constructor; [auto|]. constructor; [auto|]. constructor; auto.
      * constructor; auto.
Qed.

(** X7: the query the constructor stores is made of unreserved
    characters, [%] and [+] only, whatever the caller passed: none of the
    characters that delimit a URL or its query parameters ([&], [=], [#],
    [?], [/], space) is in it. *)
Theorem BookSearch_query_is_url_safe (query : string) :
  Forall (fun c => shouldEscape c = false \/ c = "%"%char \/ c = "+"%char)
    (list_ascii_of_string (Daum.Query (Daum.BookSearch KeyPrefix query)))
  /\
  forall c : ascii,
    In c (list_ascii_of_string "&=#?/ ") ->
    ~ In c (list_ascii_of_string
              (Daum.Query (Daum.BookSearch KeyPrefix query))).
Proof.
  cbn [Daum.Query Daum.BookSearch].
  pose proof (QueryEscape_alphabet (TrimSpace query)) as Hall.
  split; [exact Hall|].
  intros c Hc Hin.
  rewrite Forall_forall in Hall. specialize (Hall c Hin).
  cbn [list_ascii_of_string In] in Hc.
  destruct Hc as [Hc|[Hc|[Hc|[Hc|[Hc|[Hc|[]]]]]]]; subst c;
    destruct Hall as [H|[H|H]]; discriminate H.
Qed.

(** Reading back the first escaped byte of an escaped string. *)
Let first_byte (out : string) : option (ascii * string) :=
  match out with
  | EmptyString => None
  | String c rest =>
      if Ascii.eqb c "+" then Some (" "%char, rest)
      else if Ascii.eqb c "%" then
        match rest with
        | String a (String b rest') =>
            let digit (d : ascii) : nat :=
              if Nat.leb 65 (nat_of_ascii d) then (nat_of_ascii d - 55)%nat
              else (nat_of_ascii d - 48)%nat in
            Some (ascii_of_nat (16 * digit a + digit b), rest')
        | _ => None
        end
      else Some (c, rest)
  end.

Lemma first_byte_QueryEscape (c : ascii) (s : string) :
  first_byte (QueryEscape (String c s)) = Some (c, QueryEscape s).
Proof.
  destruct c as [[] [] [] [] [] [] [] []]; reflexivity.
Qed.

Lemma QueryEscape_injective (s t : string) :
  QueryEscape s = QueryEscape t -> s = t.
Proof.
  revert t. induction s as [|c s IH]; intros [|d t] H.
  - reflexivity.
  - apply (f_equal first_byte) in H.
    rewrite first_byte_QueryEscape in H. discriminate H.
  - apply (f_equal first_byte) in H.
    rewrite first_byte_QueryEscape in H. discriminate H.
  - apply (f_equal first_byte) in H.
    rewrite !first_byte_QueryEscape in H.
    inversion H as [[Hc Hs]]. f_equal. now apply IH.
Qed.

(** X8: two searches carry the same query string exactly when their
    queries are equal once the surrounding white space is trimmed:
    escaping never merges two different queries. *)
Theorem BookSearch_query_is_faithful (q1 q2 : string) :
  Daum.Query (Daum.BookSearch KeyPrefix q1)
  = Daum.Query (Daum.BookSearch KeyPrefix q2)
  <-> TrimSpace q1 = TrimSpace q2.
Proof.
  cbn [Daum.Query Daum.BookSearch]. split.
  - apply QueryEscape_injective.
  - intros H. now rewrite H.
Qed.

End EscapedQuery.

(** ** The tests of language detection *)

Section TestFacts.

Variable DetectResult : Type.
Variable REST_API_KEY : string.
Variable RequestBy : string -> string -> string -> DetectResult * option error.
Variable SaveAs : DetectResult -> string -> option error.

(** X17: the two save tests differ.  [TestDetectLanguageByGETSaveAsJSON]
    fails when the request fails or, the request done, when [SaveAs]
    fails.  [TestDetectLanguageByPOSTSaveAsJSON] fails when the request
    fails and only then: it does call [SaveAs], but a failure to save goes
    unreported. *)
Theorem save_tests_differ :
  (TranslationTest.failed DetectResult
     (TranslationTest.TestDetectLanguageByGETSaveAsJSON DetectResult
        REST_API_KEY RequestBy SaveAs) = true
   <-> snd (RequestBy TranslationTest.query REST_API_KEY "GET") <> None
       \/ SaveAs (fst (RequestBy TranslationTest.query REST_API_KEY "GET"))
            "detect_test_by_get.json" <> None)
  /\
  (TranslationTest.failed DetectResult
     (TranslationTest.TestDetectLanguageByPOSTSaveAsJSON DetectResult
        REST_API_KEY RequestBy SaveAs) = true
   <-> snd (RequestBy TranslationTest.query REST_API_KEY "POST") <> None)
  /\
  (snd (RequestBy TranslationTest.query REST_API_KEY "POST") = None ->
   TranslationTest.TestDetectLanguageByPOSTSaveAsJSON DetectResult
     REST_API_KEY RequestBy SaveAs
   = [TranslationTest.saved DetectResult "detect_test_by_post.json"]).
Proof.
  unfold TranslationTest.TestDetectLanguageByGETSaveAsJSON,
    TranslationTest.TestDetectLanguageByPOSTSaveAsJSON.
  split; [|split].
  - destruct (RequestBy TranslationTest.query REST_API_KEY "GET")
      as [dr [e|]]; cbn [fst snd]; cbv zeta.
    + split; [intros _; left; discriminate | reflexivity].
    + destruct (SaveAs dr "detect_test_by_get.json") as [e|];
        cbn [TranslationTest.failed existsb orb].
      * split; [intros _; right; discriminate | reflexivity].
      * split; [discriminate | intros [H|H]; congruence].
  - destruct (RequestBy TranslationTest.query REST_API_KEY "POST")
      as [dr [e|]]; cbn [fst snd]; cbv zeta;
      cbn [TranslationTest.failed existsb orb].
    + split; [intros _; discriminate | reflexivity].
    + split; [discriminate | congruence].
  - destruct (RequestBy TranslationTest.query REST_API_KEY "POST")
      as [dr [e|]]; cbn [fst snd]; cbv zeta.
    + discriminate.
    + reflexivity.
Qed.

End TestFacts.

(** ** Trimming *)

Section Trimming.

Local Open Scope list_scope.

(** The encodings trimmed: none is empty, each is made of bytes, no two of
    them start alike, none can be completed by the start of another, and
    each is recognised at the head of a list. *)
Variable E : list (list nat).

Hypothesis E_nonempty : forall p, In p E -> p <> [].
Hypothesis E_bytes :
  forall p, In p E -> map nat_of_ascii (map ascii_of_nat p) = p.
Hypothesis E_prefix_free :
  forall p q, In p E -> In q E -> starts p q = true -> p = q.
Hypothesis E_overlap_free :
  forall p q i,
    In p E -> In q E -> (1 <= i < List.length p)%nat ->
    stripPrefix (skipn i p) (map ascii_of_nat q) = None.
Hypothesis E_leading :
  forall p l, In p E -> firstStrip E (map ascii_of_nat p ++ l) = Some l.

Lemma stripPrefix_length (p : list nat) (l r : list ascii) :
  stripPrefix p l = Some r ->
  List.length l = (List.length p + List.length r)%nat.
Proof.
  revert l. induction p as [|b p IH]; intros l H; cbn in H.
  - inversion H. reflexivity.
  - destruct l as [|c l]; [discriminate|].
    destruct (Nat.eqb (nat_of_ascii c) b); [|discriminate].
    cbn. f_equal. now apply IH.
Qed.

Lemma stripPrefix_app (p : list nat) (l r x : list ascii) :
  stripPrefix p l = Some r -> stripPrefix p (l ++ x) = Some (r ++ x).
Proof.
  revert l. induction p as [|b p IH]; intros l H; cbn in H |- *.
  - inversion H. reflexivity.
  - destruct l as [|c l]; [discriminate|]. cbn.
    destruct (Nat.eqb (nat_of_ascii c) b); [|discriminate].
    now apply IH.
Qed.

(** A pattern that matches [l ++ x] but not [l] has used up [l]. *)
Lemma stripPrefix_across (p : list nat) (l x r : list ascii) :
  stripPrefix p (l ++ x) = Some r ->
  stripPrefix p l = None ->
  (List.length l < List.length p)%nat /\
  stripPrefix (skipn (List.length l) p) x = Some r.
Proof.
  revert l. induction p as [|b p IH]; intros l H Hn.
  - destruct l; discriminate Hn.
  - destruct l as [|c l].
    + cbn [List.length skipn]. split; [cbn; lia | exact H].
    + cbn in H, Hn.
      destruct (Nat.eqb (nat_of_ascii c) b); [|discriminate].
      destruct (IH l H Hn) as [Hlen Hskip].
      cbn [List.length skipn]. split; [lia | exact Hskip].
Qed.

(** Of two patterns that match the same bytes, the shorter starts the
    longer. *)
Lemma stripPrefix_both (p q : list nat) (l r r' : list ascii) :
  map nat_of_ascii (map ascii_of_nat q) = q ->
  (List.length p <= List.length q)%nat ->
  stripPrefix p l = Some r ->
  stripPrefix q l = Some r' ->
  starts p q = true.
Proof.
  unfold starts. revert q l.
  induction p as [|b p IH]; intros q l Hq Hlen Hp Hq'.
  - reflexivity.
  - destruct q as [|d q]; [cbn in Hlen; lia|].
    destruct l as [|c l]; [discriminate|].
    cbn in Hp, Hq'.
    destruct (Nat.eqb (nat_of_ascii c) b) eqn:Hb; [|discriminate].
    destruct (Nat.eqb (nat_of_ascii c) d) eqn:Hd; [|discriminate].
    apply Nat.eqb_eq in Hb, Hd.
    cbn [map] in Hq. inversion Hq as [[Hhead Htail]].
    cbn [map stripPrefix]. repeat rewrite Hhead. repeat rewrite Htail.
    assert (Hbd : Nat.eqb d b = true) by (apply Nat.eqb_eq; congruence).
    rewrite Hbd.
    apply (IH q l Htail); [cbn in Hlen; lia | assumption | assumption].
Qed.

Lemma same_pattern (p q : list nat) (l r r' : list ascii) :
  In p E -> In q E ->
  stripPrefix p l = Some r ->
  stripPrefix q l = Some r' ->
  p = q.
Proof.
  intros Hp Hq Hsp Hsq.
  destruct (Nat.le_ge_cases (List.length p) (List.length q)) as [Hle|Hle].
  - apply E_prefix_free; trivial.
    apply (stripPrefix_both p q l r r'); auto.
  - symmetry. apply E_prefix_free; trivial.
    apply (stripPrefix_both q p l r' r); auto.
Qed.

Lemma firstStrip_some (E' : list (list nat)) (l r : list ascii) :
  firstStrip E' l = Some r ->
  exists p, In p E' /\ stripPrefix p l = Some r.
Proof.
  induction E' as [|q E' IH]; cbn; [discriminate|].
  destruct (stripPrefix q l) as [r0|] eqn:Hq.
  - intros H. inversion H; subst. exists q. auto.
  - intros H. destruct (IH H) as (p & Hin & Hp). exists p. auto.
Qed.

Lemma firstStrip_none (E' : list (list nat)) (l : list ascii) :
  firstStrip E' l = None ->
  forall p, In p E' -> stripPrefix p l = None.
Proof.
  induction E' as [|q E' IH]; cbn; [contradiction|].
  destruct (stripPrefix q l) as [r0|] eqn:Hq; [discriminate|].
  intros H p [Hp|Hp]; [subst; exact Hq | now apply IH].
Qed.

Lemma firstStrip_nil : firstStrip E [] = None.
Proof.
  assert (H : forall E', incl E' E -> firstStrip E' [] = None).
  { induction E' as [|q E' IH]; intros Hincl; [reflexivity|].
    cbn. destruct q as [|b q].
    - exfalso. apply (E_nonempty []); [apply Hincl; now left | reflexivity].
    - cbn. apply IH. intros p Hp. apply Hincl. now right. }
  apply H. apply incl_refl.
Qed.

Lemma firstStrip_shrinks (l r : list ascii) :
  firstStrip E l = Some r -> (List.length r < List.length l)%nat.
Proof.
  intros H. destruct (firstStrip_some E l r H) as (p & Hin & Hp).
  apply stripPrefix_length in Hp.
  pose proof (E_nonempty p Hin) as Hne.
  destruct p; [congruence|]. cbn in Hp. lia.
Qed.

(** More fuel than the length changes nothing. *)
Lemma trimFront_fuel (f1 f2 : nat) (l : list ascii) :
  (List.length l <= f1)%nat -> (List.length l <= f2)%nat ->
  trimFront E f1 l = trimFront E f2 l.
Proof.
  revert f2 l. induction f1 as [|f1 IH]; intros f2 l H1 H2.
  - destruct l; [|cbn in H1; lia].
    destruct f2; cbn; [reflexivity|]. now rewrite firstStrip_nil.
  - destruct f2 as [|f2].
    + destruct l; [|cbn in H2; lia]. cbn. now rewrite firstStrip_nil.
    + cbn. destruct (firstStrip E l) as [r|] eqn:Hs; [|reflexivity].
      apply firstStrip_shrinks in Hs. apply IH; lia.
Qed.

(** Matching goes on as before when bytes are appended. *)
Lemma firstStrip_app (l r x : list ascii) :
  firstStrip E l = Some r -> firstStrip E (l ++ x) = Some (r ++ x).
Proof.
  assert (H : forall E', incl E' E ->
              firstStrip E' l = Some r ->
              firstStrip E' (l ++ x) = Some (r ++ x)).
  { induction E' as [|q E' IH]; intros Hincl; cbn; [discriminate|].
    destruct (stripPrefix q l) as [r0|] eqn:Hq.
    - intros Hr. inversion Hr; subst.
      now rewrite (stripPrefix_app q l r x Hq).
    - intros Hr.
      destruct (stripPrefix q (l ++ x)) as [r1|] eqn:Hq1.
      + exfalso.
        destruct (firstStrip_some E' l r Hr) as (p & Hin & Hp).
        assert (Heq : p = q).
        { apply (same_pattern p q (l ++ x) (r ++ x) r1).
          - apply Hincl. now right.
          - apply Hincl. now left.
          - now apply stripPrefix_app.
          - exact Hq1. }
        subst p. congruence.
      + apply IH; [|exact Hr]. intros p Hp. apply Hincl. now right. }
  apply H. apply incl_refl.
Qed.

(** Appending a whole encoding to bytes that start with none, and are not
    empty, makes no encoding appear at the front. *)
Lemma firstStrip_app_none (l : list ascii) (q : list nat) :
  In q E -> l <> [] ->
  firstStrip E l = None ->
  firstStrip E (l ++ map ascii_of_nat q) = None.
Proof.
  intros Hq Hl Hnone.
  assert (H : forall E', incl E' E ->
              firstStrip E' (l ++ map ascii_of_nat q) = None).
  { induction E' as [|p E' IH]; intros Hincl; [reflexivity|]. cbn.
    destruct (stripPrefix p (l ++ map ascii_of_nat q)) as [r|] eqn:Hp.
    - exfalso.
      assert (Hin : In p E) by (apply Hincl; now left).
      pose proof (firstStrip_none E l Hnone p Hin) as Hpl.
      destruct (stripPrefix_across p l _ r Hp Hpl) as [Hlen Hskip].
      rewrite (E_overlap_free p q (List.length l) Hin Hq) in Hskip.
      + discriminate.
      + destruct l; [congruence|]. cbn in *. lia.
    - apply IH. intros p' Hp'. apply Hincl. now right. }
  apply H. apply incl_refl.
Qed.

(** Trimming the front of bytes that end with an encoding: the encoding
    goes too when everything before it goes, and stays otherwise. *)
Lemma trimFront_app (f : nat) (l : list ascii) (q : list nat) :
  In q E -> (List.length l <= f)%nat ->
  trimFront E (f + List.length q) (l ++ map ascii_of_nat q)
  = match trimFront E f l with
    | [] => []
    | t => t ++ map ascii_of_nat q
    end.
Proof.
  intros Hq.
  assert (Hbase : forall k, trimFront E (S k) (map ascii_of_nat q) = []).
  { intros k. cbn.
    pose proof (E_leading q [] Hq) as Hlead. rewrite app_nil_r in Hlead.
    rewrite Hlead. destruct k; cbn; [reflexivity|].
    now rewrite firstStrip_nil. }
  assert (Hlen : exists k, List.length q = S k).
  { pose proof (E_nonempty q Hq). destruct q; [congruence|]. cbn. eauto. }
  destruct Hlen as [k Hk].
  revert l. induction f as [|f IH]; intros l Hl.
  - destruct l; [|cbn in Hl; lia]. cbn [app trimFront plus].
    rewrite Hk. apply Hbase.
  - cbn [plus trimFront].
    destruct (firstStrip E l) as [r|] eqn:Hs.
    + rewrite (firstStrip_app l r _ Hs).
      apply IH. apply firstStrip_shrinks in Hs. lia.
    + destruct l as [|c l].
      * cbn [app]. rewrite Hk. replace (f + S k)%nat with (S (f + k)) by lia.
        pose proof (Hbase (S (f + k))) as Hb. cbn [trimFront] in Hb.
        exact Hb.
      * rewrite (firstStrip_app_none (c :: l) q Hq); [reflexivity| |exact Hs].
        discriminate.
Qed.

End Trimming.

(** *** The white-space encodings *)

Ltac each_encoding H :=
  unfold spaceEncodings in H; cbn [In map] in H;
  repeat (destruct H as [H|H]; [symmetry in H; subst|]);
  [..|destruct H].

Lemma space_nonempty (p : list nat) : In p spaceEncodings -> p <> [].
Proof.
  intros H. each_encoding H; discriminate.
Qed.

Lemma space_nonempty_rev (p : list nat) :
  In p (map (@rev nat) spaceEncodings) -> p <> [].
Proof.
  intros H. each_encoding H; discriminate.
Qed.

Lemma space_bytes (p : list nat) :
  In p spaceEncodings -> map nat_of_ascii (map ascii_of_nat p) = p.
Proof.
  intros H. each_encoding H; reflexivity.
Qed.

Lemma space_prefix_free (p q : list nat) :
  In p spaceEncodings -> In q spaceEncodings -> starts p q = true -> p = q.
Proof.
  intros Hp Hq. each_encoding Hp; each_encoding Hq;
    intros H; first [reflexivity | discriminate H].
Qed.

Lemma space_overlap_free (p q : list nat) (i : nat) :
  In p spaceEncodings -> In q spaceEncodings ->
  (1 <= i < List.length p)%nat ->
  stripPrefix (skipn i p) (map ascii_of_nat q) = None.
Proof.
  intros Hp Hq. each_encoding Hp; each_encoding Hq;
    intros Hi; cbn [List.length] in Hi;
    destruct i as [|[|[|i]]]; try lia; reflexivity.
Qed.

Lemma space_leading (p : list nat) (l : list ascii) :
  In p spaceEncodings ->
  firstStrip spaceEncodings (map ascii_of_nat p ++ l)%list = Some l.
Proof.
  intros H. each_encoding H; reflexivity.
Qed.

Lemma space_leading_rev (p : list nat) (l : list ascii) :
  In p spaceEncodings ->
  firstStrip (map (@rev nat) spaceEncodings)
    (map ascii_of_nat (rev p) ++ l)%list = Some l.
Proof.
  intros H. each_encoding H; reflexivity.
Qed.

Lemma list_ascii_of_append (a b : string) :
  list_ascii_of_string (a ++ b)
  = (list_ascii_of_string a ++ list_ascii_of_string b)%list.
Proof.
  induction a as [|c a IH]; cbn; [reflexivity|]. now rewrite IH.
Qed.

Lemma append_assoc (a b c : string) : ((a ++ b) ++ c = a ++ (b ++ c))%string.
Proof.
  induction a as [|x a IH]; cbn; [reflexivity|]. now rewrite IH.
Qed.

Lemma TrimSpace_leading (w s : string) :
  In w whiteSpace -> TrimSpace (w ++ s) = TrimSpace s.
Proof.
  unfold whiteSpace. rewrite in_map_iff. intros (enc & <- & Henc).
  unfold TrimSpace.
  rewrite list_ascii_of_append, list_ascii_of_string_of_list_ascii.
  set (l := list_ascii_of_string s).
  assert (Hfront :
            trimFront spaceEncodings
              (List.length (map ascii_of_nat enc ++ l)%list)
              (map ascii_of_nat enc ++ l)%list
            = trimFront spaceEncodings (List.length l) l).
  { rewrite length_app, length_map.
    pose proof (space_nonempty enc Henc) as Hne.
    destruct enc as [|b enc]; [congruence|].
    cbn [List.length plus trimFront].
    rewrite (space_leading (b :: enc) l Henc).
    apply (trimFront_fuel spaceEncodings space_nonempty); lia. }
  cbv zeta. rewrite Hfront. reflexivity.
Qed.

Lemma TrimSpace_trailing (w s : string) :
  In w whiteSpace -> TrimSpace (s ++ w) = TrimSpace s.
Proof.
  unfold whiteSpace. rewrite in_map_iff. intros (enc & <- & Henc).
  unfold TrimSpace.
  rewrite list_ascii_of_append, list_ascii_of_string_of_list_ascii.
  set (l := list_ascii_of_string s). cbv zeta.
  rewrite length_app, length_map.
  rewrite (trimFront_app spaceEncodings space_nonempty space_bytes
             space_prefix_free space_overlap_free space_leading
             (List.length l) l enc Henc (le_n _)).
  destruct (trimFront spaceEncodings (List.length l) l) as [|c t];
    [reflexivity|].
  rewrite rev_app_distr, <- map_rev.
  set (r := rev (c :: t)).
  rewrite length_app, length_map.
  pose proof (space_nonempty enc Henc) as Hne.
  assert (Hrev : exists k, List.length (rev enc) = S k).
  { rewrite length_rev. destruct enc; [congruence|]. cbn. eauto. }
  destruct Hrev as [k Hk]. rewrite Hk.
  cbn [plus trimFront].
  rewrite (space_leading_rev enc r Henc).
  f_equal. f_equal.
  apply (trimFront_fuel (map (@rev nat) spaceEncodings) space_nonempty_rev);
    lia.
Qed.

Lemma TrimSpace_leading_all (ws : list string) (s : string) :
  Forall (fun w => In w whiteSpace) ws ->
  TrimSpace (join ws ++ s) = TrimSpace s.
Proof.
  induction 1 as [|w ws Hw _ IH]; cbn [join fold_right].
  - reflexivity.
  - fold (join ws). rewrite append_assoc, TrimSpace_leading; assumption.
Qed.

Lemma TrimSpace_trailing_all (ws : list string) (s : string) :
  Forall (fun w => In w whiteSpace) ws ->
  TrimSpace (s ++ join ws) = TrimSpace s.
Proof.
  intros H. revert s. induction H as [|w ws Hw _ IH]; intros s;
    cbn [join fold_right].
  - assert (Hnil : forall t : string, (t ++ EmptyString)%string = t).
    { induction t as [|c t IHt]; cbn; [reflexivity|]. now rewrite IHt. }
    now rewrite Hnil.
  - fold (join ws). rewrite <- append_assoc, IH.
    now apply TrimSpace_trailing.
Qed.

(** X18: white space around the query does not count.  Any number of
    white-space runes (blanks, tabs, line ends, U+0085, U+00A0, U+1680,
    U+2000..U+200A, U+2028, U+2029, U+202F, U+205F, U+3000) before and
    after the query leave the iterator that [BookSearch] makes, and so
    every request it sends, the same. *)
Theorem BookSearch_ignores_surrounding_space
    (KeyPrefix : string) (before after : list string) (query : string) :
  Forall (fun w => In w whiteSpace) before ->
  Forall (fun w => In w whiteSpace) after ->
  Daum.BookSearch KeyPrefix (join before ++ query ++ join after)
  = Daum.BookSearch KeyPrefix query.
Proof.
  intros Hb Ha. unfold Daum.BookSearch.
  rewrite (TrimSpace_leading_all before _ Hb).
  rewrite (TrimSpace_trailing_all after _ Ha).
  reflexivity.
Qed.

(** ** The theorems at work on concrete runs *)

(** A last page: the iterator stands at page 50 and the server says that
    more results exist. *)
Lemma Next_page_50_exhausts_witness :
  Daum.Page (self Sample.last_page) = 50 /\
  Daum.end_ (self Sample.last_page) = false /\
  Daum.IsEnd (Daum.Meta unit (fst (Sample.decode_books 3 false "{}")))
  = false /\
  Daum.end_ (self (fst (Sample.Next_served Sample.last_page))) = true /\
  forall n : nat,
    Daum.Next_times unit Sample.Authorization Sample.accept_all
      (Sample.serve "{}") (Sample.decode_books 3 false) n
      (fst (Sample.Next_served Sample.last_page))
    = (fst (Sample.Next_served Sample.last_page),
       repeat (Returned (Daum.zeroResult unit, Some ErrEndPage)) n).
Proof.
  split; [reflexivity|]. split; [reflexivity|]. split; [reflexivity|].
  apply (Next_page_50_exhausts unit Sample.Authorization Sample.accept_all
           (Sample.serve "{}") (Sample.decode_books 3 false)
           Sample.last_page (fst (Sample.Next_served Sample.last_page))
           (fst (Sample.decode_books 3 false "{}"))).
  - reflexivity.
  - reflexivity.
Defined.

(** C2 as it is written fails: a [Next] call made with [Page = 50] that
    fails leaves the end flag as it was.  With the network down the call
    returns the transport's error, the flag stays false, and the call
    after it does not return [ErrEndPage] but goes to the network again;
    the same when the body reports the end of the results but cannot be
    decoded to its end. *)
Lemma Next_page_50_failed_call_goes_on :
  Daum.Page (self Sample.last_page) = 50 /\
  Daum.end_ (self (fst (Sample.Next_offline Sample.last_page))) = false /\
  snd (Sample.Next_served (fst (Sample.Next_offline Sample.last_page)))
  <> Returned (Daum.zeroResult unit, Some ErrEndPage) /\
  List.length
    (wire (fst (Sample.Next_served
                  (fst (Sample.Next_offline Sample.last_page)))))
  = 2%nat /\
  Daum.IsEnd (Daum.Meta unit (fst (Sample.decode_cut_short "{"))) = true /\
  Daum.end_ (self (fst (Sample.Next_cut_short Sample.last_page))) = false.
Proof.
  repeat split; try reflexivity.
  vm_compute. discriminate.
Qed.

(** An exhausted iterator put through a sequence of calls, two of which
    panic. *)
Lemma end_is_permanent_witness :
  Daum.end_
    (self
       (Daum.perform_all unit Sample.FormatKey Sample.Authorization
          Sample.accept_all (Sample.serve "{}") (Sample.decode_books 3 false)
          [Daum.OpResult Call 1; Daum.OpNext; Daum.OpFilter Call "author";
           Daum.OpAuthorizeWith "key"; Daum.OpDisplay Call 0;
           Daum.OpSortBy Call "latest"; Daum.OpNext]
          Sample.exhausted))
  = true.
Proof.
  apply (end_is_permanent unit Sample.FormatKey Sample.Authorization
           Sample.accept_all (Sample.serve "{}") (Sample.decode_books 3 false)).
  reflexivity.
Defined.

(** A step with the network down, from a fresh iterator. *)
Lemma Next_error_keeps_iterator_witness :
  self (fst (Sample.Next_offline (Sample.fresh "go")))
  = self (Sample.fresh "go") /\
  wire (fst (Sample.Next_offline (fst (Sample.Next_offline (Sample.fresh "go")))))
  = [Daum.requestOf Sample.Authorization (self (Sample.fresh "go"));
     Daum.requestOf Sample.Authorization (self (Sample.fresh "go"))].
Proof.
  destruct (Next_error_keeps_iterator unit Sample.Authorization
              Sample.accept_all Sample.unreachable Sample.decode_garbage
              (Sample.fresh "go")
              (fst (Sample.Next_offline (Sample.fresh "go")))
              (Daum.zeroResult unit)
              (LibError "net/http" "connection refused") eq_refl)
    as (Hself & _ & _ & Hwire).
  split; [exact Hself|].
  destruct (Hwire (Daum.requestOf Sample.Authorization
                     (self (Sample.fresh "go"))) eq_refl) as (_ & Hsame).
  exact Hsame.
Defined.

(** Page 51 and size 0 are refused, page 7 and size 7 are taken. *)
Lemma Result_Display_bounds_witness :
  Daum.Result Call 51 (Sample.fresh "go")
  = (Sample.fresh "go", Panicked (PanicErr ErrPageOutOfBound)) /\
  Daum.Display Call 0 (Sample.fresh "go")
  = (Sample.fresh "go", Panicked (PanicErr ErrSizeOutOfBound)) /\
  Daum.Page (self (fst (Daum.Result Call 7 (Sample.fresh "go")))) = 7 /\
  Daum.Size (self (fst (Daum.Display Call 7 (Sample.fresh "go")))) = 7.
Proof.
  split; [|split; [|split]].
  - apply (proj1 (Result_Display_bounds 51 (Sample.fresh "go"))
             (or_intror eq_refl) Call).
  - apply (proj1 (Result_Display_bounds 0 (Sample.fresh "go"))
             (or_introl eq_refl) Call).
  - rewrite (proj1 (proj2 (Result_Display_bounds 7 (Sample.fresh "go"))
                      ltac:(lia))).
    reflexivity.
  - rewrite (proj2 (proj2 (Result_Display_bounds 7 (Sample.fresh "go"))
                      ltac:(lia))).
    reflexivity.
Defined.

(** [Filter] with the empty string and with a target it does not know. *)
Lemma Filter_targets_witness :
  Daum.Filter Call EmptyString (Sample.fresh "go")
  = (Sample.fresh "go", Returned tt) /\
  Daum.Target (self (fst (Daum.Filter Call "isbn" (Sample.fresh "go"))))
  = "isbn" /\
  Daum.Filter Call "author" (Sample.fresh "go")
  = (Sample.fresh "go",
     Panicked (PanicErr (errors_New Daum.filterMessage))).
Proof.
  split; [|split].
  - rewrite (proj1 (Filter_targets EmptyString (Sample.fresh "go"))).
    + reflexivity.
    + simpl. tauto.
  - rewrite (proj1 (Filter_targets "isbn" (Sample.fresh "go"))).
    + reflexivity.
    + simpl. tauto.
  - apply (proj2 (Filter_targets "author" (Sample.fresh "go"))).
    simpl. intros H. repeat (destruct H as [H|H]; [discriminate H|]).
    exact H.
Defined.

(** [Result(3)] and [Display(5)] in both orders. *)
Lemma setters_commute_witness :
  exists bi : Daum.BookSearchIterator,
    (Daum.Result Call 3 ;; Daum.Display Call 5)%go (Sample.fresh "go")
    = (mkStore bi [] [], Returned tt) /\
    (Daum.Display Call 5 ;; Daum.Result Call 3)%go (Sample.fresh "go")
    = (mkStore bi [] [], Returned tt).
Proof.
  apply (setters_commute Sample.FormatKey (Daum.SetResult 3)
           (Daum.SetDisplay 5) (Sample.fresh "go"));
    reflexivity.
Defined.

(** A setter called with an accepted argument, and setters run as the
    deferred function of a panicking goroutine with refused ones. *)
Lemma recover_branch_reached_iff_witness :
  skips_recover_branch (Daum.Result Call 3) (Sample.fresh "go") /\
  skips_recover_branch
    (Daum.SortBy (DeferredRun (Some (PanicErr (errors_New "boom")))) "oldest")
    (Sample.fresh "go") /\
  skips_recover_branch
    (Vision.ThresholdAt (DeferredRun (Some (PanicErr (errors_New "boom"))))
       nan)
    Sample.detector.
Proof.
  split; [|split].
  - apply (proj1 (proj2 (recover_branch_reached_iff Call (Sample.fresh "go")
                           Sample.detector "latest" "title" 3 5 0.5))).
    left. reflexivity.
  - apply (proj1 (recover_branch_reached_iff
                    (DeferredRun (Some (PanicErr (errors_New "boom"))))
                    (Sample.fresh "go") Sample.detector "oldest" "title" 3 5
                    0.5)).
    right. reflexivity.
  - apply (proj2 (proj2 (proj2 (proj2
             (recover_branch_reached_iff
                (DeferredRun (Some (PanicErr (errors_New "boom"))))
                (Sample.fresh "go") Sample.detector "oldest" "title" 3 5
                nan))))).
    right. reflexivity.
Defined.

(** C4 as it is written fails: [defer bi.Result(3)] in a function that
    then panics runs the body of [Result] as the deferred function of a
    panicking goroutine; the argument is accepted, [recover()] hands back
    the panic, and the branch logs it and panics anew. *)
Lemma recover_branch_reached_when_deferred :
  Daum.Result (DeferredRun (Some (PanicErr (errors_New "boom")))) 3
    (Sample.fresh "go")
  = (mkStore (Daum.set_Page 3 (Daum.BookSearch Sample.KeyPrefix "go")) []
       [PanicErr (errors_New "boom")],
     Panicked (PanicLn (PanicErr (errors_New "boom")))) /\
  ~ skips_recover_branch
      (Daum.Result (DeferredRun (Some (PanicErr (errors_New "boom")))) 3)
      (Sample.fresh "go").
Proof.
  split.
  - reflexivity.
  - intros [Hlog _]. discriminate Hlog.
Qed.

(** The documented example against the sample server. *)
Lemma search_chain_one_GET_witness :
  exists s1 res err,
    Daum.search_chain unit Sample.FormatKey Sample.Authorization
      Sample.accept_all (Sample.serve "{}") (Sample.decode_books 5 true)
      "key" 1 5 (mkStore (Daum.BookSearch Sample.KeyPrefix "오브젝트") [] [])
    = (s1, Returned (res, err)) /\
    wire s1 =
      [ {| Method := "GET";
           URL := Sample.example_URL;
           Header := [(Sample.Authorization, Sample.FormatKey "key")];
           Body := None;
           Close := true |} ] /\
    (res, err) = Sample.decode_books 5 true "{}".
Proof.
  apply (search_chain_one_GET unit Sample.KeyPrefix Sample.FormatKey
           Sample.Authorization Sample.accept_all (Sample.serve "{}")
           (Sample.decode_books 5 true) "key" eq_refl).
Defined.

(** C6 as it is written fails: the iterator hands on what the server
    sent.  Against a server that answers six documents the chain makes
    its one GET and returns a result with six documents. *)
Lemma search_chain_six_documents :
  exists s1 res,
    Sample.example_six = (s1, Returned (res, None)) /\
    List.length (wire s1) = 1%nat /\
    List.length (Daum.Documents unit res) = 6%nat /\
    ~ (List.length (Daum.Documents unit res) <= 5)%nat.
Proof.
  eexists. eexists. split; [vm_compute; reflexivity|].
  repeat split. simpl. lia.
Qed.

(** C1 at work: a file of 2 MB and one byte. *)
Lemma Collect_oversized_returns_nil_error_witness :
  Sample.Collect_from_disk (2 * 1024 * 1024 + 1) Sample.upload
  = (Sample.upload, Returned (Vision.zeroResult, None)).
Proof.
  apply (Collect_oversized_returns_nil_error Sample.Authorization
           Sample.prefix (fun _ => "0.700000")
           (Sample.disk (2 * 1024 * 1024 + 1)) (fun _ _ => None)
           (fun _ _ bytes => bytes) "multipart/form-data" Sample.accept_all
           (Sample.serve "{}") Sample.decode_faces Sample.upload
           (Sample.image (2 * 1024 * 1024 + 1)) (2 * 1024 * 1024 + 1));
    reflexivity.
Defined.

(** ** The further properties at work *)

(** A step against the sample server, from a fresh iterator. *)
Lemma Next_keeps_configuration_witness :
  Daum.Size (self (fst (Sample.Next_served (Sample.fresh "go")))) = 10 /\
  Daum.Sort (self (fst (Sample.Next_served (Sample.fresh "go"))))
  = "accuracy".
Proof.
  destruct (Next_keeps_configuration unit Sample.Authorization
              Sample.accept_all (Sample.serve "{}")
              (Sample.decode_books 3 false) (Sample.fresh "go")
              (fst (Sample.Next_served (Sample.fresh "go")))
              (snd (Sample.Next_served (Sample.fresh "go"))) eq_refl)
    as (_ & _ & _ & Hsort & Hsize & _).
  split; [rewrite Hsize | rewrite Hsort]; reflexivity.
Defined.

Lemma Next_delivers_current_page_witness :
  Daum.Page (self (fst (Sample.Next_served (Sample.fresh "go")))) = 2 /\
  Daum.end_ (self (fst (Sample.Next_served (Sample.fresh "go")))) = false /\
  Daum.Page (self (fst (Sample.Next_served Sample.last_page))) = 51.
Proof.
  destruct (Next_delivers_current_page unit Sample.Authorization
              Sample.accept_all (Sample.serve "{}")
              (Sample.decode_books 3 false) (Sample.fresh "go")
              (fst (Sample.Next_served (Sample.fresh "go")))
              (fst (Sample.decode_books 3 false "{}"))
              ltac:(cbn; lia) eq_refl)
    as (_ & _ & Hpage & Hend).
  destruct (Next_delivers_current_page unit Sample.Authorization
              Sample.accept_all (Sample.serve "{}")
              (Sample.decode_books 3 false) Sample.last_page
              (fst (Sample.Next_served Sample.last_page))
              (fst (Sample.decode_books 3 false "{}"))
              ltac:(cbn; lia) eq_refl)
    as (_ & _ & Hlast & _).
  rewrite Hpage, Hend, Hlast. repeat split.
Defined.

(** Sixty calls from page 1 and from page 50 against a server that always
    has more. *)
Lemma pages_are_bounded_witness :
  (Daum.delivered unit
     (snd (Daum.Next_times unit Sample.Authorization Sample.accept_all
             (Sample.serve "{}") (Sample.decode_books 3 false) 60
             (Sample.fresh "go"))) <= 50)%nat /\
  (Daum.delivered unit
     (snd (Daum.Next_times unit Sample.Authorization Sample.accept_all
             (Sample.serve "{}") (Sample.decode_books 3 false) 60
             Sample.last_page)) <= 1)%nat.
Proof.
  split.
  - apply (pages_are_bounded unit Sample.Authorization Sample.accept_all
             (Sample.serve "{}") (Sample.decode_books 3 false) 60
             (Sample.fresh "go")).
    cbn. lia.
  - apply (pages_are_bounded unit Sample.Authorization Sample.accept_all
             (Sample.serve "{}") (Sample.decode_books 3 false) 60
             Sample.last_page).
    cbn. lia.
Defined.

Lemma exhausted_sends_nothing_witness :
  wire
    (Daum.perform_all unit Sample.FormatKey Sample.Authorization
       Sample.accept_all (Sample.serve "{}") (Sample.decode_books 3 false)
       [Daum.OpResult Call 1; Daum.OpNext; Daum.OpDisplay Call 5;
        Daum.OpNext]
       Sample.exhausted)
  = [].
Proof.
  apply (exhausted_sends_nothing unit Sample.FormatKey Sample.Authorization
           Sample.accept_all (Sample.serve "{}")
           (Sample.decode_books 3 false)).
  reflexivity.
Defined.

Lemma last_setter_wins_witness :
  (Daum.Result Call 3 ;; Daum.Result Call 7)%go (Sample.fresh "go")
  = Daum.Result Call 7 (Sample.fresh "go").
Proof.
  apply (last_setter_wins Sample.FormatKey (Daum.SetResult 3)
           (Daum.SetResult 7) (Sample.fresh "go"));
    reflexivity.
Defined.

Lemma Collect_by_URL_witness :
  wire (fst (Sample.Collect_from_disk 0 Sample.by_url))
  = [Vision.urlRequest Sample.Authorization Sample.prefix
       (fun _ => "0.700000") (self Sample.by_url)].
Proof.
  unfold Sample.Collect_from_disk.
  rewrite (Collect_by_URL Sample.Authorization Sample.prefix
             (fun _ => "0.700000") (Sample.disk 0) (fun _ _ => None)
             (fun _ _ bytes => bytes) "multipart/form-data"
             Sample.accept_all (Sample.serve "{}") Sample.decode_faces
             Sample.by_url eq_refl).
  reflexivity.
Defined.

(** A file of exactly 2 MB goes out. *)
Lemma Collect_uploads_within_cap_witness :
  exists req : Request,
    Sample.Collect_from_disk (2 * 1024 * 1024) Sample.upload
    = (mkStore (self Sample.upload) [req] [],
       Returned (Vision.zeroResult, None)) /\
    In ("Content-Type", "multipart/form-data") (Header req) /\
    In (Sample.Authorization, Sample.KeyPrefix) (Header req).
Proof.
  destruct (Collect_uploads_within_cap Sample.Authorization Sample.prefix
              (fun _ => "0.700000") (Sample.disk (2 * 1024 * 1024))
              (fun _ _ => None) (fun _ _ bytes => bytes)
              "multipart/form-data" Sample.accept_all (Sample.serve "{}")
              Sample.decode_faces Sample.upload
              (Sample.image (2 * 1024 * 1024)) (2 * 1024 * 1024) EmptyString
              eq_refl eq_refl eq_refl ltac:(lia) eq_refl eq_refl eq_refl)
    as (req & Hrun & _ & _ & _ & _ & _ & Hfields).
  exists req. split; [exact Hrun|].
  split; apply Hfields; [left | right]; reflexivity.
Defined.

(** The detector pointed at a file that is not there. *)
Lemma Collect_upload_errors_witness :
  Sample.Collect_from_disk 0
    (mkStore (Vision.set_withFile true
                (Vision.set_Filename "none.jpg"
                   (Vision.FaceDetect Sample.KeyPrefix))) [] [])
  = (mkStore (Vision.set_withFile true
                (Vision.set_Filename "none.jpg"
                   (Vision.FaceDetect Sample.KeyPrefix))) [] [],
     Returned (Vision.zeroResult, Some (LibError "os" "no such file"))).
Proof.
  apply (Collect_upload_errors Sample.Authorization Sample.prefix
           (fun _ => "0.700000") (Sample.disk 0) (fun _ _ => None)
           (fun _ _ bytes => bytes) "multipart/form-data"
           Sample.accept_all (Sample.serve "{}") Sample.decode_faces).
  - reflexivity.
  - left. reflexivity.
Defined.

Lemma Collect_panics_when_Stat_fails_witness :
  Sample.Collect_without_stat Sample.upload
  = (Sample.upload,
     Panicked
       (PanicRuntime "invalid memory address or nil pointer dereference")).
Proof.
  apply (Collect_panics_when_Stat_fails Sample.Authorization Sample.prefix
           (fun _ => "0.700000") Sample.disk_without_stat (fun _ _ => None)
           (fun _ _ bytes => bytes) "multipart/form-data"
           Sample.accept_all (Sample.serve "{}") Sample.decode_faces
           Sample.upload (Vision.mkFile None (inr EmptyString)));
    reflexivity.
Defined.

Lemma ThresholdAt_rejects_NaN_witness :
  Vision.ThresholdAt Call nan Sample.detector
  = (Sample.detector,
     Panicked
       (PanicErr (errors_New "threshold must be between 0.1 and 1.0"))).
Proof.
  apply (ThresholdAt_rejects_NaN nan Call Sample.detector).
  reflexivity.
Defined.

(** The request goes through and saving fails: the GET test fails, the
    POST test passes. *)
Lemma save_tests_differ_witness :
  TranslationTest.failed unit
    (TranslationTest.TestDetectLanguageByGETSaveAsJSON unit "key"
       Sample.request_ok Sample.save_fails) = true /\
  TranslationTest.failed unit
    (TranslationTest.TestDetectLanguageByPOSTSaveAsJSON unit "key"
       Sample.request_ok Sample.save_fails) = false.
Proof.
  destruct (save_tests_differ unit "key" Sample.request_ok Sample.save_fails)
    as (Hget & _ & Hpost).
  split.
  - apply Hget. right. discriminate.
  - rewrite (Hpost eq_refl). reflexivity.
Defined.

(** A query typed with blanks, a tab and an ideographic space around
    it. *)
Lemma BookSearch_ignores_surrounding_space_witness :
  Daum.BookSearch Sample.KeyPrefix
    (join [" "; String (ascii_of_nat 9) EmptyString]
     ++ "go lang"
     ++ join [string_of_list_ascii (map ascii_of_nat [227; 128; 128]%nat);
              " "])
  = Daum.BookSearch Sample.KeyPrefix "go lang".
Proof.
  apply (BookSearch_ignores_surrounding_space Sample.KeyPrefix
           [" "; String (ascii_of_nat 9) EmptyString] _ "go lang").
  - repeat (apply Forall_cons;
            [vm_compute; repeat (first [left; reflexivity | right])|]).
    apply Forall_nil.
  - repeat (apply Forall_cons;
            [vm_compute; repeat (first [left; reflexivity | right])|]).
    apply Forall_nil.
Defined.

(** Page 2 with three documents a page, and a page out of range. *)
Lemma search_chain_request_witness :
  (exists s1,
     Daum.search_chain unit Sample.FormatKey Sample.Authorization
       Sample.accept_all (Sample.serve "{}") (Sample.decode_books 3 false)
       "key" 2 3 (Sample.fresh "go lang")
     = (s1, Returned (Sample.decode_books 3 false "{}")) /\
     List.length (wire s1) = 1%nat)
  /\
  (exists s1 v,
     Daum.search_chain unit Sample.FormatKey Sample.Authorization
       Sample.accept_all (Sample.serve "{}") (Sample.decode_books 3 false)
       "key" 51 3 (Sample.fresh "go lang")
     = (s1, Panicked v) /\
     wire s1 = []).
Proof.
  split.
  - destruct (proj1 (search_chain_request unit Sample.KeyPrefix
                       Sample.FormatKey Sample.Authorization
                       Sample.accept_all (Sample.serve "{}")
                       (Sample.decode_books 3 false) "go lang" "key" 2 3)
                ltac:(lia) ltac:(lia) eq_refl) as (s1 & Hrun & Hwire).
    exists s1. split; [exact Hrun|]. rewrite Hwire. reflexivity.
  - apply (proj2 (search_chain_request unit Sample.KeyPrefix
                    Sample.FormatKey Sample.Authorization
                    Sample.accept_all (Sample.serve "{}")
                    (Sample.decode_books 3 false) "go lang" "key" 51 3)).
    lia.
Defined.

Lemma detector_setters_commute_witness :
  exists fi : Vision.FaceDetectInitializer,
    (Vision.ThresholdAt Call 0.5 ;; Vision.WithFile "face.jpg")%go
      Sample.detector
    = (mkStore fi [] [], Returned tt) /\
    (Vision.WithFile "face.jpg" ;; Vision.ThresholdAt Call 0.5)%go
      Sample.detector
    = (mkStore fi [] [], Returned tt).
Proof.
  apply (detector_setters_commute Sample.FormatKey
           (Vision.SetThresholdAt 0.5) (Vision.SetWithFile "face.jpg")
           Sample.detector);
    reflexivity.
Defined.
